(** * A shallow embedding of the auto-post bot (src/bot.py)

    The bot keeps two process-wide dictionaries ([posts_data] and
    [user_channels]), talks to the chat platform through a client object and
    registers daily jobs with a scheduler.  The embedding below follows the
    Python text handler by handler:

    - Python [str] values are lists of Unicode code points, so that [len],
      slicing, [strip], [split] and [replace] count what Python counts;
    - the dictionaries are finite maps keyed by the user id;
    - handlers live in a small state-and-exception monad over the bot's
      [World]; [try]/[except] blocks are written with a [catch] combinator;
    - the chat platform is an oracle ([Platform]) answering each request of
      the client; every request the bot issues is appended to a call log.

    [await], [asyncio.sleep] and logging have no counterpart here: the
    handlers run to completion one at a time. *)

From Stdlib Require Import NArith ZArith Ascii String DecimalString List Lia.
From stdpp Require Import base option list gmap.

Local Open Scope N_scope.

(** ** Python strings *)

(** A [str] is a sequence of code points. *)
Abbreviation pystr := (list N).

(** ASCII literals of the source, read as code points. *)
Definition py (s : string) : pystr := map N_of_ascii (list_ascii_of_string s).
Arguments py : simpl never.

Definition in_ranges (rs : list (N * N)) (c : N) : bool :=
  existsb (fun r => (fst r <=? c) && (c <=? snd r)) rs.

(** [str.isspace] for one character (Unicode 14.0, the table of CPython 3.11):
    what [str.strip()] removes. *)
Definition isspace (c : N) : bool :=
  in_ranges [(9, 13); (28, 32); (133, 133); (160, 160); (5760, 5760);
             (8192, 8202); (8232, 8233); (8239, 8239); (8287, 8287);
             (12288, 12288)] c.

(** The blanks [int()] skips around a literal: as [isspace], except that the
    four ASCII separators U+001C..U+001F are not skipped. *)
Definition int_space (c : N) : bool :=
  in_ranges [(9, 13); (32, 32); (133, 133); (160, 160); (5760, 5760);
             (8192, 8202); (8232, 8233); (8239, 8239); (8287, 8287);
             (12288, 12288)] c.

(** Blocks of decimal digits (general category Nd): first code point and
    length; inside a block the digit value is the offset modulo ten. *)
Definition decimal_blocks : list (N * N) :=
  [(48, 10); (1632, 10); (1776, 10); (1984, 10); (2406, 10); (2534, 10);
   (2662, 10); (2790, 10); (2918, 10); (3046, 10); (3174, 10); (3302, 10);
   (3430, 10); (3558, 10); (3664, 10); (3792, 10); (3872, 10); (4160, 10);
   (4240, 10); (6112, 10); (6160, 10); (6470, 10); (6608, 10); (6784, 10);
   (6800, 10); (6992, 10); (7088, 10); (7232, 10); (7248, 10); (42528, 10);
   (43216, 10); (43264, 10); (43472, 10); (43504, 10); (43600, 10);
   (44016, 10); (65296, 10); (66720, 10); (68912, 10); (69734, 10);
   (69872, 10); (69942, 10); (70096, 10); (70384, 10); (70736, 10);
   (70864, 10); (71248, 10); (71360, 10); (71472, 10); (71904, 10);
   (72016, 10); (72784, 10); (73040, 10); (73120, 10); (92768, 10);
   (92864, 10); (93008, 10); (120782, 50); (123200, 10); (123632, 10);
   (125264, 10); (130032, 10)].

Definition decimal_value (c : N) : option Z :=
  match List.find (fun b => (fst b <=? c) && (c <? fst b + snd b)) decimal_blocks with
  | Some b => Some (Z.of_N ((c - fst b) mod 10))
  | None => None
  end.

(** [str.isdigit] for one character: the decimal digits and the other
    characters of numeric type Digit (superscripts, circled digits, ...). *)
Definition isdigit_char (c : N) : bool :=
  in_ranges
    [(48, 57); (178, 179); (185, 185); (1632, 1641); (1776, 1785);
     (1984, 1993); (2406, 2415); (2534, 2543); (2662, 2671); (2790, 2799);
     (2918, 2927); (3046, 3055); (3174, 3183); (3302, 3311); (3430, 3439);
     (3558, 3567); (3664, 3673); (3792, 3801); (3872, 3881); (4160, 4169);
     (4240, 4249); (4969, 4977); (6112, 6121); (6160, 6169); (6470, 6479);
     (6608, 6618); (6784, 6793); (6800, 6809); (6992, 7001); (7088, 7097);
     (7232, 7241); (7248, 7257); (8304, 8304); (8308, 8313); (8320, 8329);
     (9312, 9320); (9332, 9340); (9352, 9360); (9450, 9450); (9461, 9469);
     (9471, 9471); (10102, 10110); (10112, 10120); (10122, 10130);
     (42528, 42537); (43216, 43225); (43264, 43273); (43472, 43481);
     (43504, 43513); (43600, 43609); (44016, 44025); (65296, 65305);
     (66720, 66729); (68160, 68163); (68912, 68921); (69216, 69224);
     (69714, 69722); (69734, 69743); (69872, 69881); (69942, 69951);
     (70096, 70105); (70384, 70393); (70736, 70745); (70864, 70873);
     (71248, 71257); (71360, 71369); (71472, 71481); (71904, 71913);
     (72016, 72025); (72784, 72793); (73040, 73049); (73120, 73129);
     (92768, 92777); (92864, 92873); (93008, 93017); (120782, 120831);
     (123200, 123209); (123632, 123641); (125264, 125273); (127232, 127242);
     (130032, 130041)] c.

Definition isdigit (s : pystr) : bool :=
  match s with [] => false | _ => forallb isdigit_char s end.

(** [s.startswith(p)] *)
Fixpoint startswith (p s : pystr) : bool :=
  match p, s with
  | [], _ => true
  | _ :: _, [] => false
  | a :: p', b :: s' => (a =? b) && startswith p' s'
  end.

(** [p in s] *)
Fixpoint contains (p s : pystr) : bool :=
  startswith p s || match s with [] => false | _ :: s' => contains p s' end.

Fixpoint lstrip_with (f : N -> bool) (s : pystr) : pystr :=
  match s with
  | [] => []
  | c :: s' => if f c then lstrip_with f s' else s
  end.

Definition rstrip_with (f : N -> bool) (s : pystr) : pystr :=
  rev (lstrip_with f (rev s)).

(** [s.strip()] *)
Definition strip (s : pystr) : pystr := rstrip_with isspace (lstrip_with isspace s).

(** [s.lstrip('-')] *)
Definition lstrip_minus (s : pystr) : pystr := lstrip_with (N.eqb 45) s.

(** [s.split(sep)] for a one-character separator. *)
Fixpoint split (sep : N) (s : pystr) : list pystr :=
  match s with
  | [] => [[]]
  | c :: s' =>
      if c =? sep then [] :: split sep s'
      else match split sep s' with
           | h :: t => (c :: h) :: t
           | [] => [[c]]
           end
  end.

(** [text.replace(old, new)] for a one-character [old]. *)
Definition replace (old : N) (new : pystr) (text : pystr) : pystr :=
  flat_map (fun c => if c =? old then new else [c]) text.

(** [s.lower()].  Only the ASCII letters are mapped.  The bot lowers a text
    for one purpose, to look for the ASCII phrase [chat not found] in it, and
    no character outside ASCII lowers to a character of that phrase, so the
    test gives the same answer on Python's result. *)
Definition lower (s : pystr) : pystr :=
  map (fun c => if (65 <=? c) && (c <=? 90) then c + 32 else c) s.

(** [' '.join(args)] *)
Fixpoint join_space (args : list pystr) : pystr :=
  match args with
  | [] => []
  | [a] => a
  | a :: rest => a ++ 32 :: join_space rest
  end.

(** *** [int(s)] for a string

    CPython skips blanks on both sides, reads an optional sign and then a
    non-empty run of decimal digits in which single underscores may separate
    digits; a literal of more than 4300 digits is refused (the interpreter's
    default limit).  Every refusal is a [ValueError]: [None] here. *)
Definition int_max_str_digits : nat := 4300.

Inductive int_token := TDigit (d : Z) | TUnderscore.

Definition int_tokens (s : pystr) : option (list int_token) :=
  mapM (fun c => if c =? 95 then Some TUnderscore
                 else TDigit <$> decimal_value c) s.

(** Underscores only between two digits. *)
Fixpoint grouping_ok (prev_digit : bool) (ts : list int_token) : bool :=
  match ts with
  | [] => prev_digit
  | TDigit _ :: ts' => grouping_ok true ts'
  | TUnderscore :: ts' => prev_digit && grouping_ok false ts'
  end.

Definition token_digits (ts : list int_token) : list Z :=
  omap (fun t => match t with TDigit d => Some d | TUnderscore => None end) ts.

Definition digits_value (ds : list Z) : Z :=
  fold_left (fun acc d => (10 * acc + d)%Z) ds 0%Z.

Definition int_magnitude (s : pystr) : option Z :=
  ts ← int_tokens s;
  if grouping_ok false ts && (length (token_digits ts) <=? int_max_str_digits)%nat
  then Some (digits_value (token_digits ts))
  else None.

Definition py_int (s : pystr) : option Z :=
  match rstrip_with int_space (lstrip_with int_space s) with
  | 43 :: body => int_magnitude body
  | 45 :: body => Z.opp <$> int_magnitude body
  | body => int_magnitude body
  end.

(** ** Rendering a post *)

Definition backslash : N := 92.

Definition escape_chars : pystr := py "_*[]()~`>#+-=|{}.!".

(** [escape_markdown]: one [replace] per reserved character, in the order of
    the list.  (The [except] branch of the source cannot be reached on a
    string.) *)
Definition escape_markdown (text : pystr) : pystr :=
  fold_left (fun text char => replace char [backslash; char] text) escape_chars text.

Definition reserved (c : N) : bool := existsb (N.eqb c) escape_chars.


(** The three fixed pieces of the f-string in [format_post], before the title,
    between title and link, and after the link (box-drawing frame, the two
    emoji lines and the promotion footer). *)
Definition post_head : pystr :=
  [10; 9556] ++ repeat 9552 22 ++ [9559; 10; 32; 32; 32; 127775; 32; 42].

Definition post_middle : pystr :=
  [42; 32; 127775; 10; 9562] ++ repeat 9552 22 ++ [9565; 10; 10; 128279; 32]
  ++ py "*Watch Now:*" ++ [10].

Definition post_tail : pystr :=
  [10; 10] ++ repeat 9473 20 ++ [10; 128226] ++ py " Join: @NeonGhost\_Network"
  ++ [10] ++ repeat 9473 20 ++ [10] ++ repeat 32 12.

(** ** Data model *)

(** A channel is named by a numeric chat id or by a handle. *)
Inductive ChannelId := ChanInt (n : Z) | ChanStr (s : pystr).

#[global] Instance ChannelId_eq_dec : EqDecision ChannelId.
Proof. solve_decision. Defined.

Inductive MediaKind := photo | video | animation.

#[global] Instance MediaKind_eq_dec : EqDecision MediaKind.
Proof. solve_decision. Defined.

(** [{'type': ..., 'file_id': ...}] *)
Record Thumbnail := { th_type : MediaKind; th_file_id : pystr }.

(** One entry of [posts_data]: a dictionary with at most the four keys
    ['thumbnail'], ['video_link'], ['title'] and ['schedule_time']; a field is
    [None] when the key is not in the dictionary. *)
Record Draft := {
  d_thumbnail : option Thumbnail;
  d_video_link : option pystr;
  d_title : option pystr;
  d_schedule_time : option (Z * Z)
}.

(** [{}] *)
Definition empty_draft : Draft :=
  {| d_thumbnail := None; d_video_link := None; d_title := None; d_schedule_time := None |}.

(** [not post_data] for a dictionary: it has no key. *)
Definition draft_is_empty (d : Draft) : bool :=
  match d_thumbnail d, d_video_link d, d_title d, d_schedule_time d with
  | None, None, None, None => true
  | _, _, _, _ => false
  end.

Definition set_thumbnail (t : Thumbnail) (d : Draft) : Draft :=
  {| d_thumbnail := Some t; d_video_link := d_video_link d; d_title := d_title d;
     d_schedule_time := d_schedule_time d |}.
Definition set_video_link (l : pystr) (d : Draft) : Draft :=
  {| d_thumbnail := d_thumbnail d; d_video_link := Some l; d_title := d_title d;
     d_schedule_time := d_schedule_time d |}.
Definition set_title (t : pystr) (d : Draft) : Draft :=
  {| d_thumbnail := d_thumbnail d; d_video_link := d_video_link d; d_title := Some t;
     d_schedule_time := d_schedule_time d |}.
Definition set_schedule_time (t : Z * Z) (d : Draft) : Draft :=
  {| d_thumbnail := d_thumbnail d; d_video_link := d_video_link d; d_title := d_title d;
     d_schedule_time := Some t |}.

(** [format_post]: both fields are escaped, put into the frame, and the whole
    text is stripped. *)
Definition format_post (post_data : Draft) : pystr :=
  let title := default (py "Untitled") (d_title post_data) in
  let video_link := default [] (d_video_link post_data) in
  let title := escape_markdown title in
  let video_link := escape_markdown video_link in
  strip (post_head ++ title ++ post_middle ++ video_link ++ post_tail).

(** The conversation states, [range(5)], and [ConversationHandler.END]. *)
Inductive State := THUMBNAIL | VIDEO_LINK | TITLE | SCHEDULE_TIME | CHANNELS | END.

(** A job of the scheduler: [post_to_channels] for [job_user], every day at
    [job_hour]:[job_minute] (the [CronTrigger] of the source; the job id,
    built from the wall clock, is left out). *)
Record Job := { job_user : Z; job_hour : Z; job_minute : Z }.

(** ** Exceptions *)

Inductive PlatformError :=
  | Forbidden (msg : pystr)
  | BadRequest (msg : pystr)
  | OtherError (msg : pystr).

Inductive PyKey := KInt (n : Z) | KStr (s : pystr).

Inductive Exn :=
  | EPlatform (e : PlatformError)
  | KeyError (k : PyKey)
  | ValueError (msg : pystr)
  | AttributeError (msg : pystr).

(** [str(n)] for an integer. *)
Definition str_of_Z (n : Z) : pystr := py (DecimalString.NilZero.string_of_int (Z.to_int n)).

Definition str_of_channel (c : ChannelId) : pystr :=
  match c with ChanInt n => str_of_Z n | ChanStr s => s end.

(** [str(e)] *)
Definition exn_str (e : Exn) : pystr :=
  match e with
  | EPlatform (Forbidden m) | EPlatform (BadRequest m) | EPlatform (OtherError m) => m
  | KeyError (KInt n) => str_of_Z n
  | KeyError (KStr s) => [39] ++ s ++ [39]
  | ValueError m | AttributeError m => m
  end.

(** ** The chat platform and the bot's state *)

(** The bot's own membership record in a chat.  [can_post_messages] is [None]
    when the object has no such attribute ([hasattr] is false); otherwise it
    holds the attribute's value, which is itself [None], [True] or [False]. *)
Record ChatMember := {
  status : pystr;
  can_post_messages : option (option bool)
}.

(** [(is_admin, error)] as [verify_bot_admin] returns it. *)
Definition AdminVerificationResult : Type := bool * option pystr.

(** One line of the failure report: [(channel, reason)]. *)
Definition Failure : Type := ChannelId * option pystr.

(** One channel of the [/channels] listing: position, channel, display name,
    and the verification result. *)
Record ChannelEntry := {
  ce_index : nat;
  ce_channel : ChannelId;
  ce_name : option pystr;
  ce_verification : AdminVerificationResult
}.

(** What the bot says to the user.  Each constructor stands for one message
    template of the source and carries the values formatted into it. *)
Inductive Reply :=
  (* new_post *)
  | NoChannelsConfigured | AskThumbnail | ErrorNewPost
  (* receive_thumbnail *)
  | InvalidThumbnail | ThumbnailReceived | ErrorThumbnail
  (* receive_video_link *)
  | InvalidUrl | LinkSaved | ErrorLink
  (* receive_title *)
  | TitleTooLong | PostReady (link50 title : pystr) | ErrorTitle
  (* handle_post_action: query.answer(), edit_message_text, reply_text *)
  | AnswerQuery | Posting | PostComplete (success : nat) (failed : list Failure)
  | AskScheduleTime | ErrorAction
  (* receive_schedule_time *)
  | Scheduled (time_str : pystr) (n_channels : nat) | InvalidTime | ErrorSchedule
  (* cancel *)
  | Cancelled
  (* manage_channels *)
  | ChannelList (entries : list ChannelEntry) | ErrorChannels
  (* handle_channel_forward *)
  | ForwardAdded (title : option pystr) (id : Z)
  | ForwardAddedWarning (title : option pystr) (id : Z) (error : option pystr)
  | ForwardExists (title : option pystr) (is_admin : bool)
  | ForwardNoInfo | ForwardPlease | ErrorForward (e : pystr)
  (* add_channel *)
  | HowToAdd | InvalidChannelId
  | ChannelAdded (name : option pystr) (channel : ChannelId)
  | ChannelAddedWarning (name : option pystr) (channel : ChannelId) (error : option pystr)
  | ChannelExists (name : option pystr) (is_admin : bool)
  | ErrorAddChannel (e : pystr)
  (* remove_channel *)
  | RemoveUsage | ChannelRemoved (name : option pystr) (channel : ChannelId)
  | ChannelNotFound | ErrorRemove.

(** A request issued to the platform client. *)
Inductive Call :=
  | GetChatMember (chat_id : ChannelId)
  | GetChat (chat_id : ChannelId)
  | SendMedia (kind : MediaKind) (chat_id : ChannelId) (file_id caption : pystr)
  | SendReply (r : Reply).

(** The platform's answers.  [get_chat] answers with the chat's [title]
    attribute ([None] when the chat object has none). *)
Record Platform := {
  get_chat_member : ChannelId -> PlatformError + ChatMember;
  get_chat : ChannelId -> PlatformError + option pystr;
  send_media : MediaKind -> ChannelId -> pystr -> pystr -> option PlatformError;
  deliver : Reply -> option PlatformError
}.

(** The process state: the two global dictionaries, the scheduler's jobs and
    the requests issued so far (oldest first). *)
Record World := {
  posts_data : gmap Z Draft;
  user_channels : gmap Z (list ChannelId);
  jobs : list Job;
  calls : list Call
}.

Definition with_posts_data (f : gmap Z Draft -> gmap Z Draft) (w : World) : World :=
  {| posts_data := f (posts_data w); user_channels := user_channels w;
     jobs := jobs w; calls := calls w |}.
Definition with_user_channels (f : gmap Z (list ChannelId) -> gmap Z (list ChannelId))
    (w : World) : World :=
  {| posts_data := posts_data w; user_channels := f (user_channels w);
     jobs := jobs w; calls := calls w |}.
Definition with_job (j : Job) (w : World) : World :=
  {| posts_data := posts_data w; user_channels := user_channels w;
     jobs := jobs w ++ [j]; calls := calls w |}.
Definition with_call (c : Call) (w : World) : World :=
  {| posts_data := posts_data w; user_channels := user_channels w;
     jobs := jobs w; calls := calls w ++ [c] |}.

(** ** The handler monad: state and exceptions *)

Inductive Res (A : Type) := Ok (a : A) | Raise (e : Exn).
Arguments Ok {A} a.
Arguments Raise {A} e.

Definition M (A : Type) : Type := World -> Res A * World.

Definition ret {A} (a : A) : M A := fun w => (Ok a, w).

Definition bind {A B} (m : M A) (k : A -> M B) : M B :=
  fun w => match m w with
           | (Ok a, w') => k a w'
           | (Raise e, w') => (Raise e, w')
           end.

Definition raise {A} (e : Exn) : M A := fun w => (Raise e, w).

(** [try: m except Exception as e: h e] *)
Definition catch {A} (m : M A) (h : Exn -> M A) : M A :=
  fun w => match m w with
           | (Ok a, w') => (Ok a, w')
           | (Raise e, w') => h e w'
           end.

Definition get : M World := fun w => (Ok w, w).
Definition modify (f : World -> World) : M unit := fun w => (Ok tt, f w).

Notation "x <- m ;; k" := (bind m (fun x => k))
  (at level 90, m at next level, right associativity).
Notation "m ;;; k" := (bind m (fun _ => k))
  (at level 90, right associativity).

(** [posts_data[user_id]], a [KeyError] when the user has no draft. *)
Definition draft_of (user_id : Z) : M Draft :=
  w <- get ;;
  match posts_data w !! user_id with
  | Some d => ret d
  | None => raise (KeyError (KInt user_id))
  end.

(** [d[key]] for a draft field. *)
Definition item {A} (key : string) (field : option A) : M A :=
  match field with
  | Some v => ret v
  | None => raise (KeyError (KStr (py key)))
  end.

(** [posts_data[user_id][key] = value] *)
Definition update_draft (user_id : Z) (f : Draft -> Draft) : M unit :=
  d <- draft_of user_id ;;
  modify (with_posts_data <[user_id := f d]>).

(** [x in l] and [l.remove(x)] on a Python list. *)
Definition py_in (x : ChannelId) (l : list ChannelId) : bool := bool_decide (x ∈ l).

Fixpoint py_remove (x : ChannelId) (l : list ChannelId) : list ChannelId :=
  match l with
  | [] => []
  | y :: l' => if decide (x = y) then l' else y :: py_remove x l'
  end.

Section Bot.

Variable P : Platform.

(** Requests to the platform: logged, then answered by the oracle. *)
Definition call_get_chat_member (chat_id : ChannelId) : M ChatMember :=
  modify (with_call (GetChatMember chat_id)) ;;;
  match get_chat_member P chat_id with
  | inr member => ret member
  | inl e => raise (EPlatform e)
  end.

Definition call_get_chat (chat_id : ChannelId) : M (option pystr) :=
  modify (with_call (GetChat chat_id)) ;;;
  match get_chat P chat_id with
  | inr title => ret title
  | inl e => raise (EPlatform e)
  end.

(** [send_photo], [send_video] or [send_animation], by [kind]. *)
Definition call_send (kind : MediaKind) (chat_id : ChannelId) (file_id caption : pystr)
    : M unit :=
  modify (with_call (SendMedia kind chat_id file_id caption)) ;;;
  match send_media P kind chat_id file_id caption with
  | None => ret tt
  | Some e => raise (EPlatform e)
  end.

(** [reply_text] and the two calls on the callback query. *)
Definition reply (r : Reply) : M unit :=
  modify (with_call (SendReply r)) ;;;
  match deliver P r with
  | None => ret tt
  | Some e => raise (EPlatform e)
  end.

Definition truthy (v : option bool) : bool :=
  match v with Some true => true | _ => false end.

(** [verify_bot_admin] *)
Definition verify_bot_admin (chat_id : ChannelId) : M AdminVerificationResult :=
  catch
    (bot_member <- call_get_chat_member chat_id ;;
     if bool_decide (status bot_member ∈ [py "administrator"; py "creator"]) then
       if bool_decide (status bot_member = py "creator") then ret (true, None)
       else
         match can_post_messages bot_member with
         | Some flag =>
             if truthy flag || bool_decide (status bot_member = py "creator")
             then ret (true, None)
             else ret (false, Some (py "Bot doesn't have 'Post Messages' permission"))
         | None => ret (true, None)
         end
     else
       ret (false, Some (py "Bot is not an admin (Status: " ++ status bot_member ++ py ")")))
    (fun e =>
       match e with
       | EPlatform (Forbidden _) => ret (false, Some (py "Bot is not a member of this channel"))
       | EPlatform (BadRequest msg) =>
           if contains (py "chat not found") (lower msg)
           then ret (false, Some (py "Channel not found or bot was removed"))
           else ret (false, Some (py "Cannot access channel: " ++ msg))
       | _ => ret (false, Some (py "Error checking permissions: " ++ exn_str e))
       end).

(** [get_chat_info]: the chat's title, or the identifier as text when the
    lookup fails; the second component is the error text. *)
Definition get_chat_info (chat_id : ChannelId) : M (option pystr * option pystr) :=
  catch
    (title <- call_get_chat chat_id ;; ret (title, None))
    (fun e => ret (Some (str_of_channel chat_id), Some (exn_str e))).

(** The body of the [for] loop of [post_to_channels] for one channel, on the
    two accumulators. *)
Definition post_one (caption : pystr) (thumbnail : Thumbnail)
    (acc : nat * list Failure) (channel : ChannelId) : M (nat * list Failure) :=
  let '(success_count, failed_channels) := acc in
  catch
    (v <- verify_bot_admin channel ;;
     let '(is_admin, error) := v in
     if negb is_admin then ret (success_count, failed_channels ++ [(channel, error)])
     else
       call_send (th_type thumbnail) channel (th_file_id thumbnail) caption ;;;
       ret (S success_count, failed_channels))
    (fun e =>
       match e with
       | EPlatform (Forbidden _) =>
           ret (success_count,
                failed_channels ++ [(channel, Some (py "Bot is not admin or was removed"))])
       | EPlatform (BadRequest _) =>
           ret (success_count,
                failed_channels ++ [(channel, Some (py "Invalid request: " ++ exn_str e))])
       | _ =>
           ret (success_count,
                failed_channels ++ [(channel, Some (py "Error: " ++ take 50 (exn_str e)))])
       end).

Fixpoint post_loop (caption : pystr) (thumbnail : Thumbnail)
    (channels : list ChannelId) (acc : nat * list Failure) : M (nat * list Failure) :=
  match channels with
  | [] => ret acc
  | channel :: rest =>
      acc' <- post_one caption thumbnail acc channel ;;
      post_loop caption thumbnail rest acc'
  end.

Definition NA : ChannelId := ChanStr (py "N/A").

(** [post_to_channels].  The outer handler returns the two accumulators as
    they are when the fault occurs; the only statements that can raise outside
    the per-channel [try] come before the loop, where they are still [0] and
    [[]]. *)
Definition post_to_channels (user_id : Z) : M (nat * list Failure) :=
  let success_count := 0%nat in
  let failed_channels : list Failure := [] in
  catch
    (w <- get ;;
     match posts_data w !! user_id with
     | None => ret (0%nat, [(NA, Some (py "No post data"))])
     | Some post_data =>
         if draft_is_empty post_data then ret (0%nat, [(NA, Some (py "No post data"))])
         else
           let channels := default [] (user_channels w !! user_id) in
           match channels with
           | [] => ret (0%nat, [(NA, Some (py "No channels configured"))])
           | _ =>
               let caption := format_post post_data in
               thumbnail <- item "thumbnail" (d_thumbnail post_data) ;;
               post_loop caption thumbnail channels (success_count, failed_channels)
           end
     end)
    (fun _ => ret (success_count, failed_channels)).

(** ** Incoming updates *)

(** Where a forwarded message comes from: a channel (the origin has a [chat],
    with its id and title) or anything else (a user, a hidden sender). *)
Inductive ForwardOrigin :=
  | OriginChat (chat_id : Z) (chat_title : option pystr)
  | OriginOther.

(** The parts of [update.message] the handlers read.  [m_photo] lists the file
    ids of the photo sizes (empty when the message has no photo). *)
Record Message := {
  m_photo : list pystr;
  m_video : option pystr;
  m_animation : option pystr;
  m_text : option pystr;
  m_forward_origin : option ForwardOrigin
}.

(** [update.message.text.strip()]: an [AttributeError] when there is no text. *)
Definition stripped_text (msg : Message) : M pystr :=
  match m_text msg with
  | Some t => ret (strip t)
  | None => raise (AttributeError (py "'NoneType' object has no attribute 'strip'"))
  end.

(** ** The wizard *)

(** [new_post] *)
Definition new_post (user_id : Z) : M State :=
  catch
    (w <- get ;;
     match user_channels w !! user_id with
     | None | Some [] => reply NoChannelsConfigured ;;; ret END
     | Some (_ :: _) =>
         modify (with_posts_data <[user_id := empty_draft]>) ;;;
         reply AskThumbnail ;;;
         ret THUMBNAIL
     end)
    (fun _ => reply ErrorNewPost ;;; ret END).

(** [receive_thumbnail] *)
Definition receive_thumbnail (user_id : Z) (msg : Message) : M State :=
  catch
    (let accepted := reply ThumbnailReceived ;;; ret VIDEO_LINK in
     match last (m_photo msg), m_video msg, m_animation msg with
     | Some file_id, _, _ =>
         update_draft user_id (set_thumbnail {| th_type := photo; th_file_id := file_id |}) ;;;
         accepted
     | None, Some file_id, _ =>
         update_draft user_id (set_thumbnail {| th_type := video; th_file_id := file_id |}) ;;;
         accepted
     | None, None, Some file_id =>
         update_draft user_id (set_thumbnail {| th_type := animation; th_file_id := file_id |}) ;;;
         accepted
     | None, None, None => reply InvalidThumbnail ;;; ret THUMBNAIL
     end)
    (fun _ => reply ErrorThumbnail ;;; ret THUMBNAIL).

(** [receive_video_link] *)
Definition receive_video_link (user_id : Z) (msg : Message) : M State :=
  catch
    (link <- stripped_text msg ;;
     if negb (startswith (py "http://") link || startswith (py "https://") link) then
       reply InvalidUrl ;;; ret VIDEO_LINK
     else
       update_draft user_id (set_video_link link) ;;;
       reply LinkSaved ;;;
       ret TITLE)
    (fun _ => reply ErrorLink ;;; ret VIDEO_LINK).

(** [receive_title] *)
Definition receive_title (user_id : Z) (msg : Message) : M State :=
  catch
    (title <- stripped_text msg ;;
     if (100 <? length title)%nat then reply TitleTooLong ;;; ret TITLE
     else
       update_draft user_id (set_title title) ;;;
       d <- draft_of user_id ;;
       link <- item "video_link" (d_video_link d) ;;
       reply (PostReady (take 50 link) title) ;;;
       ret SCHEDULE_TIME)
    (fun _ => reply ErrorTitle ;;; ret TITLE).

(** [handle_post_action], on the callback data of the pressed button.  The
    result is [None] when the function falls off its end (the conversation
    then stays where it is). *)
Definition handle_post_action (user_id : Z) (data : pystr) : M (option State) :=
  catch
    (reply AnswerQuery ;;;
     if bool_decide (data = py "post_now") then
       reply Posting ;;;
       r <- post_to_channels user_id ;;
       let '(success, failed) := r in
       reply (PostComplete success failed) ;;;
       ret (Some END)
     else if bool_decide (data = py "schedule_post") then
       reply AskScheduleTime ;;; ret (Some CHANNELS)
     else ret None)
    (fun _ => reply ErrorAction ;;; ret (Some END)).

(** [hour, minute = map(int, time_str.split(':'))]: exactly two parts, both
    integers; anything else is a [ValueError]. *)
Definition unpack_hour_minute (parts : list pystr) : M (Z * Z) :=
  match parts with
  | [a; b] =>
      match py_int a, py_int b with
      | Some hour, Some minute => ret (hour, minute)
      | _, _ => raise (ValueError (py "invalid literal for int() with base 10"))
      end
  | _ => raise (ValueError (py "wrong number of values to unpack"))
  end.

Definition time_in_range (hour minute : Z) : bool :=
  ((0 <=? hour) && (hour <=? 23) && (0 <=? minute) && (minute <=? 59))%Z.

(** [receive_schedule_time].  The inner block yields [Some CHANNELS] when its
    [except ValueError] handler returns, [None] when it runs to its end. *)
Definition receive_schedule_time (user_id : Z) (msg : Message) : M State :=
  catch
    (time_str <- stripped_text msg ;;
     r <- catch
            (hm <- unpack_hour_minute (split 58 time_str) ;;
             let '(hour, minute) := hm in
             if negb (time_in_range hour minute) then
               raise (ValueError (py "Invalid time range"))
             else
               update_draft user_id (set_schedule_time (hour, minute)) ;;;
               modify (with_job {| job_user := user_id; job_hour := hour; job_minute := minute |}) ;;;
               w <- get ;;
               reply (Scheduled time_str (length (default [] (user_channels w !! user_id)))) ;;;
               ret None)
            (fun e =>
               match e with
               | ValueError _ => reply InvalidTime ;;; ret (Some CHANNELS)
               | _ => raise e
               end) ;;
     match r with
     | Some s => ret s
     | None => ret END
     end)
    (fun _ => reply ErrorSchedule ;;; ret END).

(** [cancel] *)
Definition cancel (user_id : Z) : M State :=
  catch
    (modify (with_posts_data (delete user_id)) ;;;
     reply Cancelled ;;;
     ret END)
    (fun _ => ret END).

(** ** The channel registry *)

(** The loop of [manage_channels]: one name lookup and one verification per
    channel, numbered from [i]. *)
Fixpoint list_entries (i : nat) (channels : list ChannelId) : M (list ChannelEntry) :=
  match channels with
  | [] => ret []
  | ch :: rest =>
      info <- get_chat_info ch ;;
      v <- verify_bot_admin ch ;;
      entries <- list_entries (S i) rest ;;
      ret ({| ce_index := i; ce_channel := ch; ce_name := fst info; ce_verification := v |}
           :: entries)
  end.

(** [manage_channels] *)
Definition manage_channels (user_id : Z) : M unit :=
  catch
    (w <- get ;;
     entries <- list_entries 1 (default [] (user_channels w !! user_id)) ;;
     reply (ChannelList entries))
    (fun _ => reply ErrorChannels).

(** [if user_id not in user_channels: user_channels[user_id] = []], then
    the list itself. *)
Definition channels_of (user_id : Z) : M (list ChannelId) :=
  w <- get ;;
  match user_channels w !! user_id with
  | Some l => ret l
  | None => modify (with_user_channels <[user_id := []]>) ;;; ret []
  end.

(** [user_channels[user_id].append(channel)] *)
Definition append_channel (user_id : Z) (channel : ChannelId) : M unit :=
  modify (with_user_channels (fun uc => <[user_id := default [] (uc !! user_id) ++ [channel]]> uc)).

(** [handle_channel_forward] *)
Definition handle_channel_forward (user_id : Z) (msg : Message) : M unit :=
  catch
    (match m_forward_origin msg with
     | Some (OriginChat channel_id title) =>
         let channel_title := Some (default (py "Unknown Channel") title) in
         v <- verify_bot_admin (ChanInt channel_id) ;;
         let '(is_admin, error) := v in
         l <- channels_of user_id ;;
         if negb (py_in (ChanInt channel_id) l) then
           append_channel user_id (ChanInt channel_id) ;;;
           if is_admin then reply (ForwardAdded channel_title channel_id)
           else reply (ForwardAddedWarning channel_title channel_id error)
         else reply (ForwardExists channel_title is_admin)
     | Some OriginOther => reply ForwardNoInfo
     | None => reply ForwardPlease
     end)
    (fun e => reply (ErrorForward (exn_str e))).

(** The channel identifier [add_channel] reads from its argument: a link, a
    numeric id, or a handle.  [None] stands for the [ValueError] of [int]. *)
Definition parse_channel (channel_input : pystr) : option ChannelId :=
  if contains (py "t.me/") channel_input || contains (py "telegram.me/") channel_input then
    Some (ChanStr (py "@" ++ default [] (last (split 47 channel_input))))
  else if startswith (py "-100") channel_input || isdigit (lstrip_minus channel_input) then
    ChanInt <$> py_int channel_input
  else if startswith (py "@") channel_input then Some (ChanStr channel_input)
  else Some (ChanStr (py "@" ++ channel_input)).

(** [add_channel] *)
Definition add_channel (user_id : Z) (msg : Message) (args : list pystr) : M unit :=
  catch
    (match m_forward_origin msg, args with
     | Some _, _ => handle_channel_forward user_id msg
     | None, [] => reply HowToAdd
     | None, _ :: _ =>
         match parse_channel (join_space args) with
         | None => reply InvalidChannelId
         | Some channel =>
             v <- verify_bot_admin channel ;;
             let '(is_admin, error) := v in
             info <- get_chat_info channel ;;
             let chat_name := fst info in
             l <- channels_of user_id ;;
             if negb (py_in channel l) then
               append_channel user_id channel ;;;
               if is_admin then reply (ChannelAdded chat_name channel)
               else reply (ChannelAddedWarning chat_name channel error)
             else reply (ChannelExists chat_name is_admin)
         end
     end)
    (fun e => reply (ErrorAddChannel (take 100 (exn_str e)))).

(** The identifier [remove_channel] reads: an integer when the argument starts
    with a minus sign and parses, the text itself otherwise. *)
Definition parse_removed (channel_input : pystr) : ChannelId :=
  if startswith (py "-") channel_input then
    match py_int channel_input with
    | Some n => ChanInt n
    | None => ChanStr channel_input
    end
  else ChanStr channel_input.

(** [remove_channel] *)
Definition remove_channel (user_id : Z) (args : list pystr) : M unit :=
  catch
    (match args with
     | [] => reply RemoveUsage
     | channel_input :: _ =>
         let channel := parse_removed channel_input in
         w <- get ;;
         match user_channels w !! user_id with
         | Some l =>
             if py_in channel l then
               info <- get_chat_info channel ;;
               modify (with_user_channels
                         (fun uc => <[user_id := py_remove channel (default [] (uc !! user_id))]> uc)) ;;;
               reply (ChannelRemoved (fst info) channel)
             else reply ChannelNotFound
         | None => reply ChannelNotFound
         end
     end)
    (fun _ => reply ErrorRemove).

End Bot.

(** * Properties *)

(** ** Escaping and rendering *)

Section Escaping.

(** What [escape_markdown] does to one character. *)
Definition escape_char (c : N) : pystr :=
  if reserved c then [backslash; c] else [c].

Lemma escape_chars_NoDup : NoDup escape_chars.
Proof. apply (bool_decide_unpack _). by vm_compute. Qed.

Lemma backslash_not_reserved : reserved backslash = false.
Proof. reflexivity. Qed.

Lemma existsb_eqb_false (c : N) (cs : pystr) : c ∉ cs -> existsb (N.eqb c) cs = false.
Proof.
  induction cs as [|a cs IH]; [done|]; intros Hc; simpl.
  apply not_elem_of_cons in Hc as [Hne Hc].
  rewrite IH by done. by apply N.eqb_neq in Hne as ->.
Qed.

(** The sequence of [replace] calls is one pass over the text: no pass sees
    what an earlier pass inserted, since the marker is not in the list and
    no character is listed twice. *)
Lemma replace_passes (cs : pystr) :
  NoDup cs -> backslash ∉ cs ->
  forall text,
    fold_left (fun text char => replace char [backslash; char] text) cs text
    = flat_map (fun c => if existsb (N.eqb c) cs then [backslash; c] else [c]) text.
Proof.
  induction cs as [|a cs IH]; intros Hnd Hb text; simpl.
  - induction text as [|c text IHt]; simpl; congruence.
  - apply NoDup_cons in Hnd as [Ha Hnd]. apply not_elem_of_cons in Hb as [Hba Hb].
    rewrite IH by done. unfold replace.
    induction text as [|c text IHt]; [done|]. simpl.
    rewrite flat_map_app, IHt. f_equal.
    destruct (N.eqb_spec c a) as [->|Hne]; simpl.
    + rewrite (existsb_eqb_false backslash cs), (existsb_eqb_false a cs) by done.
      done.
    + by rewrite app_nil_r.
Qed.

Lemma escape_markdown_flat_map (text : pystr) :
  escape_markdown text = flat_map escape_char text.
Proof.
  unfold escape_markdown. rewrite replace_passes.
  - done.
  - apply escape_chars_NoDup.
  - apply (bool_decide_unpack _). by vm_compute.
Qed.

(** Position [i] of [s] comes right after a marker. *)
Definition marked_at (s : pystr) (i : nat) : Prop :=
  exists j, i = S j /\ s !! j = Some backslash.

Lemma flat_map_escape_marked (text : pystr) (i : nat) (c : N) :
  flat_map escape_char text !! i = Some c -> reserved c = true ->
  marked_at (flat_map escape_char text) i.
Proof.
  revert i. induction text as [|x text IH]; intros i Hi Hc; [done|].
  simpl in *. unfold escape_char at 1 in Hi. unfold escape_char at 1.
  destruct (reserved x) eqn:Hx; simpl in *.
  - destruct i as [|[|i]]; simpl in *.
    + injection Hi as <-. by rewrite backslash_not_reserved in Hc.
    + by exists 0%nat.
    + destruct (IH i Hi Hc) as (j & -> & Hj). by exists (S (S j)).
  - destruct i as [|i]; simpl in *.
    + injection Hi as <-. congruence.
    + destruct (IH i Hi Hc) as (j & -> & Hj). by exists (S j).
Qed.

Lemma escape_markdown_marked (text : pystr) (i : nat) (c : N) :
  escape_markdown text !! i = Some c -> reserved c = true ->
  marked_at (escape_markdown text) i.
Proof. rewrite escape_markdown_flat_map. apply flat_map_escape_marked. Qed.

Lemma escape_twice (text : pystr) :
  escape_markdown (escape_markdown text)
  = flat_map (fun c => if reserved c then [backslash; backslash; c] else [c]) text.
Proof.
  rewrite !escape_markdown_flat_map.
  induction text as [|c text IH]; [done|]. simpl.
  rewrite flat_map_app, IH. f_equal.
  unfold escape_char. destruct (reserved c) eqn:Hc; cbn [flat_map app].
  - by rewrite backslash_not_reserved, Hc.
  - by rewrite Hc.
Qed.

Lemma escape_twice_same_iff (text : pystr) :
  escape_markdown (escape_markdown text) = escape_markdown text
  <-> forallb (fun c => negb (reserved c)) text = true.
Proof.
  rewrite escape_twice, escape_markdown_flat_map.
  induction text as [|c text IH]; [done|]. simpl.
  unfold escape_char at 1. destruct (reserved c) eqn:Hc; simpl.
  - split; [|done]. intros H. injection H as H _. subst c.
    by rewrite backslash_not_reserved in Hc.
  - rewrite <- IH. split; [by intros [=]|by intros ->].
Qed.

(** Stripping a text whose first and last characters are not blank. *)
Lemma lstrip_with_blank (f : N -> bool) (ws s : pystr) :
  forallb f ws = true -> lstrip_with f (ws ++ s) = lstrip_with f s.
Proof.
  induction ws as [|c ws IH]; [done|]; simpl.
  intros [-> H]%andb_prop. auto.
Qed.

Lemma rstrip_with_blank (f : N -> bool) (s ws : pystr) :
  forallb f ws = true -> rstrip_with f (s ++ ws) = rstrip_with f s.
Proof.
  intros H. unfold rstrip_with. rewrite rev_app_distr, lstrip_with_blank; [done|].
  rewrite forallb_forall in *. intros x Hx. apply H. by apply in_rev.
Qed.

Lemma rstrip_with_solid (f : N -> bool) (s : pystr) (c : N) :
  f c = false -> rstrip_with f (s ++ [c]) = s ++ [c].
Proof.
  intros H. unfold rstrip_with. rewrite rev_app_distr. simpl. rewrite H.
  simpl. by rewrite rev_involutive.
Qed.

(** The frame as it stands after [strip]: the first newline and the final
    newline and indentation are gone. *)
Definition frame_top : pystr := drop 1 post_head.
Definition frame_bottom : pystr := take 71 post_tail.

Lemma lstrip_with_solid (f : N -> bool) (c : N) (s : pystr) :
  f c = false -> lstrip_with f (c :: s) = c :: s.
Proof. intros H. simpl. by rewrite H. Qed.

Lemma format_post_frame (post_data : Draft) :
  format_post post_data
  = frame_top
    ++ escape_markdown (default (py "Untitled") (d_title post_data))
    ++ post_middle
    ++ escape_markdown (default [] (d_video_link post_data))
    ++ frame_bottom.
Proof.
  unfold format_post.
  generalize (escape_markdown (default (py "Untitled") (d_title post_data))).
  generalize (escape_markdown (default [] (d_video_link post_data))).
  intros l t. unfold strip.
  replace post_head with ([10] ++ 9556 :: drop 2 post_head) by reflexivity.
  rewrite <- (app_assoc [10]), lstrip_with_blank by reflexivity.
  rewrite <- app_comm_cons, lstrip_with_solid by reflexivity.
  rewrite app_comm_cons.
  replace (9556 :: drop 2 post_head) with frame_top by reflexivity.
  replace post_tail with ((take 70 post_tail ++ [9473]) ++ drop 71 post_tail)
    by reflexivity.
  rewrite !app_assoc. rewrite rstrip_with_blank by reflexivity.
  rewrite rstrip_with_solid by reflexivity.
  rewrite <- !app_assoc.
  replace (take 70 post_tail ++ [9473]) with frame_bottom by reflexivity.
  reflexivity.
Qed.

(** The two user-supplied fields as they enter the frame. *)
Definition escaped_title (post_data : Draft) : pystr :=
  escape_markdown (default (py "Untitled") (d_title post_data)).
Definition escaped_link (post_data : Draft) : pystr :=
  escape_markdown (default [] (d_video_link post_data)).

Lemma marked_at_inside (pre s post : pystr) (i : nat) :
  marked_at s i -> marked_at (pre ++ s ++ post) (length pre + i).
Proof.
  intros (j & -> & Hj). exists (length pre + j)%nat. split; [lia|].
  rewrite lookup_app_r by lia.
  replace (length pre + j - length pre)%nat with j by lia.
  by apply lookup_app_l_Some.
Qed.

(** C4.  The rendered post is the fixed frame around the escaped title and the
    escaped link; every reserved character inside those two segments stands
    right after a backslash; escaping is one pass and not idempotent: a second
    application puts two backslashes before each reserved character, and gives
    the same text as one application only when the text has no reserved
    character at all. *)
Theorem format_post_escapes_user_text (post_data : Draft) (text : pystr) :
  format_post post_data
  = frame_top ++ escaped_title post_data ++ post_middle
    ++ escaped_link post_data ++ frame_bottom
  /\ (forall i c,
        escaped_title post_data !! i = Some c -> reserved c = true ->
        marked_at (format_post post_data) (length frame_top + i))
  /\ (forall i c,
        escaped_link post_data !! i = Some c -> reserved c = true ->
        marked_at (format_post post_data)
          (length frame_top + length (escaped_title post_data)
           + length post_middle + i))
  /\ escape_markdown (escape_markdown text)
     = flat_map (fun c => if reserved c then [backslash; backslash; c] else [c]) text
  /\ (escape_markdown (escape_markdown text) = escape_markdown text
      <-> forallb (fun c => negb (reserved c)) text = true).
Proof.
  split; [apply format_post_frame|].
  split; [|split; [|split; [apply escape_twice|apply escape_twice_same_iff]]].
  - intros i c Hi Hc. rewrite format_post_frame.
    apply marked_at_inside. eapply escape_markdown_marked; eauto.
  - intros i c Hi Hc. rewrite format_post_frame.
    fold (escaped_title post_data) (escaped_link post_data).
    rewrite (app_assoc (escaped_title post_data)), (app_assoc frame_top).
    replace (length frame_top + length (escaped_title post_data)
             + length post_middle + i)%nat
      with (length (frame_top ++ escaped_title post_data ++ post_middle) + i)%nat
      by (rewrite !length_app; lia).
    apply marked_at_inside. eapply escape_markdown_marked; eauto.
Qed.

End Escaping.

(** ** Admin verification *)

Ltac unfold_monad :=
  unfold catch, bind, ret, raise, get, modify in *.

Section Verification.

Variable P : Platform.

Definition not_a_member : pystr := py "Bot is not a member of this channel".

(** The verification issues exactly one request, the membership lookup, and
    never raises. *)
Lemma verify_bot_admin_total (chat_id : ChannelId) (w : World) :
  exists r, verify_bot_admin P chat_id w = (Ok r, with_call (GetChatMember chat_id) w).
Proof.
  unfold verify_bot_admin, call_get_chat_member. unfold_monad.
  destruct (get_chat_member P chat_id) as [[msg|msg|msg]|member]; simpl.
  - eauto.
  - destruct (contains _ _); eauto.
  - eauto.
  - repeat case_bool_decide; simpl; eauto.
    destruct (can_post_messages member) as [[[|]|]|]; simpl; eauto.
Qed.


End Verification.

(** ** The broadcast engine *)

Definition empty_world : World :=
  {| posts_data := ∅; user_channels := ∅; jobs := []; calls := [] |}.

Section Broadcast.

Variable P : Platform.

(** The verification result for a channel: it depends on the platform's
    answer alone, not on the bot's state. *)
Definition verdict (chat_id : ChannelId) : AdminVerificationResult :=
  match fst (verify_bot_admin P chat_id empty_world) with
  | Ok r => r
  | Raise _ => (false, None)
  end.

Lemma verify_bot_admin_verdict (chat_id : ChannelId) (w : World) :
  verify_bot_admin P chat_id w
  = (Ok (verdict chat_id), with_call (GetChatMember chat_id) w).
Proof.
  unfold verdict, verify_bot_admin, call_get_chat_member. unfold_monad.
  destruct (get_chat_member P chat_id) as [[msg|msg|msg]|member]; simpl.
  - done.
  - by destruct (contains _ _).
  - done.
  - repeat case_bool_decide; simpl; try done.
    by destruct (can_post_messages member) as [[[|]|]|].
Qed.

(** The reason recorded when a send fails. *)
Definition send_failure_reason (e : PlatformError) : pystr :=
  match e with
  | Forbidden _ => py "Bot is not admin or was removed"
  | BadRequest m => py "Invalid request: " ++ m
  | OtherError m => py "Error: " ++ take 50 m
  end.

(** One turn of the loop, spelled out: what is returned and which requests
    are issued.  It never raises. *)
Definition post_one_result (caption : pystr) (thumbnail : Thumbnail)
    (acc : nat * list Failure) (channel : ChannelId) : nat * list Failure :=
  if fst (verdict channel) then
    match send_media P (th_type thumbnail) channel (th_file_id thumbnail) caption with
    | None => (S (fst acc), snd acc)
    | Some e => (fst acc, snd acc ++ [(channel, Some (send_failure_reason e))])
    end
  else (fst acc, snd acc ++ [(channel, snd (verdict channel))]).

Definition post_one_calls (caption : pystr) (thumbnail : Thumbnail)
    (channel : ChannelId) : list Call :=
  GetChatMember channel
  :: (if fst (verdict channel)
      then [SendMedia (th_type thumbnail) channel (th_file_id thumbnail) caption]
      else []).

Definition with_calls (cs : list Call) (w : World) : World :=
  {| posts_data := posts_data w; user_channels := user_channels w;
     jobs := jobs w; calls := calls w ++ cs |}.

Lemma with_calls_nil (w : World) : with_calls [] w = w.
Proof. destruct w. unfold with_calls. simpl. by rewrite app_nil_r. Qed.

Lemma with_calls_app (cs cs' : list Call) (w : World) :
  with_calls cs' (with_calls cs w) = with_calls (cs ++ cs') w.
Proof. unfold with_calls. simpl. by rewrite app_assoc. Qed.

Lemma with_call_twice (c c' : Call) (w : World) :
  with_call c' (with_call c w) = with_calls [c; c'] w.
Proof. unfold with_call, with_calls. simpl. by rewrite <- app_assoc. Qed.

Lemma post_one_run (caption : pystr) (thumbnail : Thumbnail)
    (acc : nat * list Failure) (channel : ChannelId) (w : World) :
  post_one P caption thumbnail acc channel w
  = (Ok (post_one_result caption thumbnail acc channel),
     with_calls (post_one_calls caption thumbnail channel) w).
Proof.
  destruct acc as [sc fl].
  unfold post_one, post_one_result, post_one_calls, call_send.
  unfold catch at 1. unfold bind at 1. rewrite verify_bot_admin_verdict.
  destruct (verdict channel) as [[|] error]; simpl.
  - unfold_monad. simpl.
    destruct (send_media P _ _ _ _) as [[m|m|m]|]; simpl;
      by rewrite with_call_twice.
  - unfold_monad. done.
Qed.

(** The whole loop as a left fold. *)
Lemma post_loop_run (caption : pystr) (thumbnail : Thumbnail)
    (channels : list ChannelId) (acc : nat * list Failure) (w : World) :
  post_loop P caption thumbnail channels acc w
  = (Ok (fold_left (post_one_result caption thumbnail) channels acc),
     with_calls (flat_map (post_one_calls caption thumbnail) channels) w).
Proof.
  revert acc w. induction channels as [|c channels IH]; intros acc w; simpl.
  - by rewrite with_calls_nil.
  - unfold bind. rewrite post_one_run, IH, with_calls_app. done.
Qed.

(** The two accumulators always account for every channel. *)
Lemma post_loop_accounts (caption : pystr) (thumbnail : Thumbnail)
    (channels : list ChannelId) (acc : nat * list Failure) :
  let r := fold_left (post_one_result caption thumbnail) channels acc in
  (fst r + length (snd r) = fst acc + length (snd acc) + length channels)%nat.
Proof.
  revert acc. induction channels as [|c channels IH]; intros acc; simpl; [lia|].
  cbv zeta in IH. rewrite IH. unfold post_one_result.
  destruct (fst (verdict c)); [destruct (send_media P _ _ _ _)|]; simpl;
    rewrite ?length_app; simpl; lia.
Qed.

(** Every channel of the list is looked up, in the stored order, whatever
    happened to the channels before it. *)
Lemma post_loop_attempts_all (caption : pystr) (thumbnail : Thumbnail)
    (channels : list ChannelId) :
  omap (fun c => match c with GetChatMember ch => Some ch | _ => None end)
       (flat_map (post_one_calls caption thumbnail) channels)
  = channels.
Proof.
  induction channels as [|c channels IH]; [done|]. simpl.
  rewrite omap_app. unfold post_one_calls at 1.
  destruct (fst (verdict c)); simpl; f_equal; exact IH.
Qed.

Definition no_draft (w : World) (user_id : Z) : bool :=
  match posts_data w !! user_id with
  | None => true
  | Some post_data => draft_is_empty post_data
  end.

Definition no_channels (w : World) (user_id : Z) : bool :=
  match default [] (user_channels w !! user_id) with
  | [] => true
  | _ :: _ => false
  end.

Definition is_admin (c : ChannelId) : bool := fst (verdict c).
Definition failing (channels : list ChannelId) : list ChannelId :=
  List.filter (fun c => negb (is_admin c)) channels.
Definition verification_failure (c : ChannelId) : Failure := (c, snd (verdict c)).

Lemma length_failing_le (channels : list ChannelId) :
  (length (failing channels) <= length channels)%nat.
Proof. apply List.filter_length_le. Qed.

(** When every send to a verified channel succeeds, the loop counts the
    verified channels and lists the others with their reasons, in order. *)
Lemma post_loop_verification_only (caption : pystr) (thumbnail : Thumbnail)
    (channels : list ChannelId) (acc : nat * list Failure) :
  (forall c, c ∈ channels -> is_admin c = true ->
     send_media P (th_type thumbnail) c (th_file_id thumbnail) caption = None) ->
  fold_left (post_one_result caption thumbnail) channels acc
  = ((fst acc + (length channels - length (failing channels)))%nat,
     snd acc ++ map verification_failure (failing channels)).
Proof.
  revert acc. induction channels as [|c channels IH]; intros [sc fl] Hsend.
  - simpl. rewrite app_nil_r. f_equal. lia.
  - simpl fold_left. rewrite IH.
    2:{ intros c' Hc'. apply Hsend. by apply list_elem_of_further. }
    pose proof (length_failing_le channels) as Hle.
    unfold post_one_result, failing. simpl List.filter.
    fold (is_admin c). destruct (is_admin c) eqn:Hc; simpl negb; cbv iota.
    + rewrite (Hsend c) by (done || apply list_elem_of_here).
      simpl. fold (failing channels). f_equal; lia.
    + simpl. fold (failing channels). rewrite <- app_assoc. f_equal; lia.
Qed.

Lemma thumbnail_not_empty (post_data : Draft) (thumbnail : Thumbnail) :
  d_thumbnail post_data = Some thumbnail -> draft_is_empty post_data = false.
Proof. unfold draft_is_empty. by intros ->. Qed.

(** The run of [post_to_channels] once both preconditions hold and the draft
    has its thumbnail. *)
Lemma post_to_channels_run (user_id : Z) (w : World) (post_data : Draft)
    (thumbnail : Thumbnail) (channels : list ChannelId) :
  posts_data w !! user_id = Some post_data ->
  d_thumbnail post_data = Some thumbnail ->
  user_channels w !! user_id = Some channels ->
  channels <> [] ->
  post_to_channels P user_id w
  = (Ok (fold_left (post_one_result (format_post post_data) thumbnail) channels (0%nat, [])),
     with_calls (flat_map (post_one_calls (format_post post_data) thumbnail) channels) w).
Proof.
  intros Hd Ht Hc Hne. unfold post_to_channels.
  unfold catch, bind at 1, get. rewrite Hd, (thumbnail_not_empty _ _ Ht), Hc. cbv [from_option id].
  destruct channels as [|c channels]; [done|].
  rewrite Ht. unfold item, bind, ret. by rewrite post_loop_run.
Qed.

(** C1 (as amended).  For a user whose draft has its thumbnail and whose
    channel list is not empty: if every send to a verified channel succeeds,
    the broadcast returns N - K successes and K failure entries, one per
    channel that failed verification, each with that channel and its
    verification reason, in the order of the list. *)
Theorem post_to_channels_verification_failures (user_id : Z) (w : World)
    (post_data : Draft) (thumbnail : Thumbnail) (channels : list ChannelId) :
  posts_data w !! user_id = Some post_data ->
  d_thumbnail post_data = Some thumbnail ->
  user_channels w !! user_id = Some channels ->
  channels <> [] ->
  (forall c, c ∈ channels -> is_admin c = true ->
     send_media P (th_type thumbnail) c (th_file_id thumbnail) (format_post post_data)
     = None) ->
  fst (post_to_channels P user_id w)
  = Ok ((length channels - length (failing channels))%nat,
        map verification_failure (failing channels))
  /\ length (map verification_failure (failing channels)) = length (failing channels)
  /\ (forall c, c ∈ failing channels <-> c ∈ channels /\ is_admin c = false).
Proof.
  intros Hd Ht Hc Hne Hsend. split; [|split].
  - rewrite (post_to_channels_run _ _ _ _ _ Hd Ht Hc Hne). simpl fst.
    by rewrite post_loop_verification_only.
  - apply length_map.
  - intros c. unfold failing. rewrite !list_elem_of_In, filter_In.
    by rewrite negb_true_iff.
Qed.

(** C2.  When the user has no draft (no entry, or an empty dictionary) or no
    channel, the broadcast returns no success and one synthetic failure entry
    that names the missing precondition, and the world, with its log of
    requests, is left as it was: no lookup and no send is issued. *)
Theorem post_to_channels_preconditions (user_id : Z) (w : World) :
  no_draft w user_id = true \/ no_channels w user_id = true ->
  exists reason,
    post_to_channels P user_id w = (Ok (0%nat, [(NA, Some reason)]), w)
    /\ reason = (if no_draft w user_id then py "No post data"
                 else py "No channels configured").
Proof.
  unfold no_draft, no_channels, post_to_channels. unfold_monad.
  destruct (posts_data w !! user_id) as [post_data|]; [|by eauto].
  destruct (draft_is_empty post_data); [by eauto|].
  intros [?|Hc]; [done|].
  destruct (default [] (user_channels w !! user_id)); [by eauto|done].
Qed.

(** [post_to_channels] returns on every input: nothing it does raises to the
    caller. *)
Lemma post_to_channels_total (user_id : Z) (w : World) :
  exists r w', post_to_channels P user_id w = (Ok r, w').
Proof.
  unfold post_to_channels. unfold catch, bind at 1, get.
  destruct (posts_data w !! user_id) as [post_data|]; [|by unfold ret; eauto].
  destruct (draft_is_empty post_data); [by unfold ret; eauto|].
  destruct (default [] (user_channels w !! user_id)) as [|c l]; [by unfold ret; eauto|].
  destruct (d_thumbnail post_data) as [thumbnail|]; unfold item, bind, ret, raise.
  - rewrite post_loop_run. eauto.
  - eauto.
Qed.

(** Per-channel isolation: for a draft that holds its thumbnail and a
    non-empty channel list, every channel of the list is looked up, in order,
    and each one ends either as a success or as a failure entry. *)
Lemma post_to_channels_attempts_all (user_id : Z) (w : World) (post_data : Draft)
    (thumbnail : Thumbnail) (channels : list ChannelId) :
  posts_data w !! user_id = Some post_data ->
  d_thumbnail post_data = Some thumbnail ->
  user_channels w !! user_id = Some channels ->
  channels <> [] ->
  exists success failed new_calls,
    post_to_channels P user_id w = (Ok (success, failed), with_calls new_calls w)
    /\ (success + length failed = length channels)%nat
    /\ omap (fun c => match c with GetChatMember ch => Some ch | _ => None end) new_calls
       = channels.
Proof.
  intros Hd Ht Hc Hne. rewrite (post_to_channels_run _ _ _ _ _ Hd Ht Hc Hne).
  pose proof (post_loop_accounts (format_post post_data) thumbnail channels (0%nat, [])) as Hacc.
  cbv zeta in Hacc. simpl in Hacc.
  destruct (fold_left _ channels _) as [success failed] eqn:Hr.
  exists success, failed, (flat_map (post_one_calls (format_post post_data) thumbnail) channels).
  split; [done|]. split; [done|]. apply post_loop_attempts_all.
Qed.

End Broadcast.

(** ** A concrete platform and user

    User 7 has the channels [100] and [@pub].  The bot is not a member of
    [100]; everywhere else it is an administrator allowed to post; every send
    and every reply goes through. *)

Definition admin_member : ChatMember :=
  {| status := py "administrator"; can_post_messages := Some (Some true) |}.

Definition scenario_platform : Platform :=
  {| get_chat_member := fun c =>
       if decide (c = ChanInt 100) then inl (Forbidden (py "Forbidden: bot is not a member"))
       else inr admin_member;
     get_chat := fun _ => inr (Some (py "Public"));
     send_media := fun _ _ _ _ => None;
     deliver := fun _ => None |}.

Definition scenario_thumbnail : Thumbnail :=
  {| th_type := photo; th_file_id := py "AgACAgIAAxk" |}.

Definition scenario_draft : Draft :=
  {| d_thumbnail := Some scenario_thumbnail;
     d_video_link := Some (py "https://example.com/watch?v=1");
     d_title := Some (py "Hello_world!");
     d_schedule_time := None |}.

Definition scenario_channels : list ChannelId := [ChanInt 100; ChanStr (py "@pub")].

Definition scenario_world : World :=
  {| posts_data := {[ 7%Z := scenario_draft ]};
     user_channels := {[ 7%Z := scenario_channels ]};
     jobs := []; calls := [] |}.

(** The same user with an empty channel list. *)
Definition no_channel_world : World :=
  {| posts_data := {[ 7%Z := scenario_draft ]};
     user_channels := {[ 7%Z := [] ]};
     jobs := []; calls := [] |}.

(** A draft that has a link and a title but no thumbnail (two conversations
    of one user share the draft: [/newpost] in a second chat empties it while
    the first chat goes on to the link and title steps). *)
Definition headless_draft : Draft :=
  {| d_thumbnail := None;
     d_video_link := Some (py "https://example.com/watch?v=1");
     d_title := Some (py "Hello");
     d_schedule_time := None |}.

Definition headless_world : World :=
  {| posts_data := {[ 7%Z := headless_draft ]};
     user_channels := {[ 7%Z := [ChanInt 100] ]};
     jobs := []; calls := [] |}.

(** The scenario of the specification: one success, and the failure of
    channel [100] with the reason of a forbidden lookup. *)
Lemma post_to_channels_scenario :
  fst (post_to_channels scenario_platform 7 scenario_world)
  = Ok (1%nat, [(ChanInt 100, Some not_a_member)]).
Proof. vm_compute. reflexivity. Qed.

Lemma post_to_channels_verification_failures_witness :
  fst (post_to_channels scenario_platform 7 scenario_world)
  = Ok ((length scenario_channels - length (failing scenario_platform scenario_channels))%nat,
        map (verification_failure scenario_platform)
            (failing scenario_platform scenario_channels))
  /\ length (map (verification_failure scenario_platform)
                 (failing scenario_platform scenario_channels))
     = length (failing scenario_platform scenario_channels)
  /\ (forall c, c ∈ failing scenario_platform scenario_channels
                <-> c ∈ scenario_channels /\ is_admin scenario_platform c = false).
Proof.
  apply (post_to_channels_verification_failures scenario_platform 7 scenario_world
           scenario_draft scenario_thumbnail scenario_channels).
  - reflexivity.
  - reflexivity.
  - reflexivity.
  - discriminate.
  - reflexivity.
Defined.

(** C1 as stated fails on the empty list: no channel fails verification
    (N = 0, K = 0), yet the outcome holds one failure entry. *)
Lemma post_to_channels_empty_list_counterexample :
  user_channels no_channel_world !! 7%Z = Some []
  /\ failing scenario_platform [] = []
  /\ fst (post_to_channels scenario_platform 7 no_channel_world)
     = Ok (0%nat, [(NA, Some (py "No channels configured"))])
  /\ fst (post_to_channels scenario_platform 7 no_channel_world)
     <> Ok ((length (@nil ChannelId) - length (failing scenario_platform []))%nat,
            map (verification_failure scenario_platform) (failing scenario_platform [])).
Proof.
  split; [reflexivity|]. split; [reflexivity|].
  split; [vm_compute; reflexivity|]. vm_compute. discriminate.
Qed.

Lemma post_to_channels_preconditions_witness :
  exists reason,
    post_to_channels scenario_platform 7 no_channel_world
    = (Ok (0%nat, [(NA, Some reason)]), no_channel_world)
    /\ reason = (if no_draft no_channel_world 7 then py "No post data"
                 else py "No channels configured").
Proof.
  apply (post_to_channels_preconditions scenario_platform 7 no_channel_world).
  right. reflexivity.
Defined.

(** A fault outside the per-channel handlers (here the [KeyError] of the
    missing thumbnail) is caught, and the outcome returned holds no success
    and no failure entry at all; no request was issued. *)
Lemma post_to_channels_swallows_fault :
  no_draft headless_world 7 = false
  /\ no_channels headless_world 7 = false
  /\ post_to_channels scenario_platform 7 headless_world = (Ok (0%nat, []), headless_world).
Proof. repeat split; vm_compute; reflexivity. Qed.

(** ** The wizard *)

(** A plain text message. *)
Definition text_message (t : pystr) : Message :=
  {| m_photo := []; m_video := None; m_animation := None; m_text := Some t;
     m_forward_origin := None |}.

(** What [receive_schedule_time] reads out of the stripped text: the hour and
    minute when the text has exactly two colon-separated parts, both are
    integers for [int()], and both are in range. *)
Definition schedule_time_of (time_str : pystr) : option (Z * Z) :=
  match split 58 time_str with
  | [a; b] =>
      match py_int a, py_int b with
      | Some hour, Some minute =>
          if time_in_range hour minute then Some (hour, minute) else None
      | _, _ => None
      end
  | _ => None
  end.

Arguments time_in_range : simpl never.

Lemma time_in_range_spec (hour minute : Z) :
  time_in_range hour minute = true
  <-> (0 <= hour <= 23)%Z /\ (0 <= minute <= 59)%Z.
Proof. unfold time_in_range. rewrite !andb_true_iff, !Z.leb_le. tauto. Qed.

Lemma schedule_time_of_Some (time_str : pystr) (hour minute : Z) :
  schedule_time_of time_str = Some (hour, minute)
  <-> exists a b, split 58 time_str = [a; b]
                  /\ py_int a = Some hour /\ py_int b = Some minute
                  /\ (0 <= hour <= 23)%Z /\ (0 <= minute <= 59)%Z.
Proof.
  unfold schedule_time_of. split.
  - destruct (split 58 time_str) as [|a [|b [|c l]]]; try done.
    destruct (py_int a) as [h|] eqn:Ha; [|done].
    destruct (py_int b) as [m|] eqn:Hb; [|done].
    destruct (time_in_range h m) eqn:Hr; [|done].
    intros [= <- <-]. apply time_in_range_spec in Hr. by exists a, b.
  - intros (a & b & -> & -> & -> & Hh & Hm).
    by rewrite (proj2 (time_in_range_spec hour minute)).
Qed.



Section Wizard.

Variable P : Platform.

Lemma reply_run (r : Reply) (w : World) :
  reply P r w
  = (match deliver P r with None => Ok tt | Some e => Raise (EPlatform e) end,
     with_call (SendReply r) w).
Proof. unfold reply. unfold_monad. simpl. by destruct (deliver P r). Qed.

(** The world after an accepted schedule time, before the confirmation is
    sent. *)
Definition scheduled_world (user_id : Z) (d : Draft) (hour minute : Z) (w : World) : World :=
  with_job {| job_user := user_id; job_hour := hour; job_minute := minute |}
    (with_posts_data <[user_id := set_schedule_time (hour, minute) d]> w).

Definition confirmation (user_id : Z) (time_str : pystr) (w : World) : Reply :=
  Scheduled time_str (length (default [] (user_channels w !! user_id))).

Lemma receive_schedule_time_rejected (user_id : Z) (text : pystr) (w : World) :
  schedule_time_of (strip text) = None ->
  deliver P InvalidTime = None ->
  receive_schedule_time P user_id (text_message text) w
  = (Ok CHANNELS, with_call (SendReply InvalidTime) w).
Proof.
  intros Hnone Hd.
  unfold receive_schedule_time, stripped_text, unpack_hour_minute, reply.
  unfold schedule_time_of in Hnone. unfold_monad. simpl.
  destruct (split 58 (strip text)) as [|a [|b [|c l]]]; simpl; rewrite ?Hd; try done.
  destruct (py_int a) as [h|]; [destruct (py_int b) as [m|]|];
    simpl; rewrite ?Hd; try done.
  destruct (time_in_range h m); [done|]. simpl. by rewrite ?Hd.
Qed.

Lemma receive_schedule_time_accepted (user_id : Z) (text : pystr) (w : World)
    (d : Draft) (hour minute : Z) :
  schedule_time_of (strip text) = Some (hour, minute) ->
  posts_data w !! user_id = Some d ->
  deliver P (confirmation user_id (strip text) w) = None ->
  receive_schedule_time P user_id (text_message text) w
  = (Ok END,
     with_call (SendReply (confirmation user_id (strip text) w))
       (scheduled_world user_id d hour minute w)).
Proof.
  intros Hsome Hdraft Hd.
  unfold receive_schedule_time, stripped_text, unpack_hour_minute, update_draft,
    draft_of, reply.
  unfold schedule_time_of in Hsome. unfold confirmation in Hd. unfold_monad. simpl.
  destruct (split 58 (strip text)) as [|a [|b [|c l]]]; try done.
  destruct (py_int a) as [h|]; [|done]. destruct (py_int b) as [m|]; [|done].
  destruct (time_in_range h m) eqn:Hr; [|done]. injection Hsome as -> ->.
  simpl. rewrite Hdraft. simpl. by rewrite Hd.
Qed.

(** C7.  In the schedule-time step, a text that does not give an hour in
    0..23 and a minute in 0..59 (it does not split into two parts, a part is
    no integer, or a value is out of range) is answered with the format
    reminder and the conversation stays in the same state, with the drafts
    and the jobs untouched; ["25:00"] and ["9:60"] are such texts.  A text
    that does is accepted: the time is stored in the draft, a daily job for
    that hour and minute is added for the user, and the wizard ends;
    ["09:00"] and ["23:59"] are accepted as 9:00 and 23:59. *)
Theorem receive_schedule_time_validates (user_id : Z) (text : pystr) (w : World) :
  (schedule_time_of (strip text) = None ->
   deliver P InvalidTime = None ->
   receive_schedule_time P user_id (text_message text) w
   = (Ok CHANNELS, with_call (SendReply InvalidTime) w))
  /\ (forall d hour minute,
        schedule_time_of (strip text) = Some (hour, minute) ->
        posts_data w !! user_id = Some d ->
        deliver P (confirmation user_id (strip text) w) = None ->
        receive_schedule_time P user_id (text_message text) w
        = (Ok END,
           with_call (SendReply (confirmation user_id (strip text) w))
             (scheduled_world user_id d hour minute w))
        /\ jobs (scheduled_world user_id d hour minute w)
           = jobs w ++ [{| job_user := user_id; job_hour := hour; job_minute := minute |}])
  /\ (forall hour minute,
        schedule_time_of (strip text) = Some (hour, minute)
        <-> exists a b, split 58 (strip text) = [a; b]
                        /\ py_int a = Some hour /\ py_int b = Some minute
                        /\ (0 <= hour <= 23)%Z /\ (0 <= minute <= 59)%Z)
  /\ schedule_time_of (strip (py "25:00")) = None
  /\ schedule_time_of (strip (py "9:60")) = None
  /\ schedule_time_of (strip (py "09:00")) = Some (9, 0)%Z
  /\ schedule_time_of (strip (py "23:59")) = Some (23, 59)%Z.
Proof.
  split; [apply receive_schedule_time_rejected|].
  split; [|split; [intros; apply schedule_time_of_Some|by vm_compute]].
  intros d hour minute Hs Hd Hr. split; [|done].
  by apply receive_schedule_time_accepted.
Qed.


End Wizard.

Section WizardSteps.

Variable P : Platform.

(** [link.startswith('http://') or link.startswith('https://')] *)
Definition valid_link (link : pystr) : bool :=
  startswith (py "http://") link || startswith (py "https://") link.

(** Logging a request changes neither dictionary nor the jobs. *)
Lemma with_call_frame (c : Call) (w : World) :
  posts_data (with_call c w) = posts_data w
  /\ user_channels (with_call c w) = user_channels w
  /\ jobs (with_call c w) = jobs w.
Proof. done. Qed.




Lemma receive_title_accepted (user_id : Z) (text : pystr) (w : World)
    (d : Draft) (link : pystr) :
  (length (strip text) <= 100)%nat ->
  posts_data w !! user_id = Some d ->
  d_video_link d = Some link ->
  deliver P (PostReady (take 50 link) (strip text)) = None ->
  receive_title P user_id (text_message text) w
  = (Ok SCHEDULE_TIME,
     with_call (SendReply (PostReady (take 50 link) (strip text)))
       (with_posts_data <[user_id := set_title (strip text) d]> w)).
Proof.
  intros Hl Hdraft Hlink Hd.
  unfold receive_title, stripped_text, reply, update_draft, draft_of, item.
  assert ((100 <? length (strip text))%nat = false) as Hlt by (apply Nat.ltb_ge; lia).
  unfold_monad. cbv beta iota zeta. cbn [m_text text_message]. cbv beta iota zeta.
  rewrite Hlt, Hdraft. cbv beta iota zeta. cbn [posts_data with_posts_data].
  rewrite lookup_insert_eq. cbv beta iota zeta. cbn [d_video_link set_title].
  rewrite Hlink. cbv beta iota zeta. by rewrite Hd.
Qed.


End WizardSteps.

(** ** The lifetime of a draft *)

Section DraftLifetime.

Variable P : Platform.

Lemma cancel_run (user_id : Z) (w : World) :
  cancel P user_id w
  = (Ok END, with_call (SendReply Cancelled) (with_posts_data (delete user_id) w)).
Proof.
  unfold cancel. unfold catch, bind at 1, modify. unfold bind. rewrite reply_run.
  by destruct (deliver P Cancelled).
Qed.

(** A broadcast only adds to the log of requests. *)
Lemma post_to_channels_frame (user_id : Z) (w : World) :
  exists cs, snd (post_to_channels P user_id w) = with_calls cs w.
Proof.
  unfold post_to_channels. unfold catch, bind at 1, get.
  destruct (posts_data w !! user_id) as [post_data|];
    [|by exists []; rewrite with_calls_nil].
  destruct (draft_is_empty post_data); [by exists []; rewrite with_calls_nil|].
  destruct (default [] (user_channels w !! user_id)) as [|c l];
    [by exists []; rewrite with_calls_nil|].
  destruct (d_thumbnail post_data) as [thumbnail|]; unfold item, bind, ret, raise.
  - rewrite post_loop_run. eauto.
  - by exists []; rewrite with_calls_nil.
Qed.

(** Computations that leave the draft store as it is, and how they compose. *)
Definition keeps_drafts {A} (m : M A) : Prop :=
  forall w, posts_data (snd (m w)) = posts_data w.

Lemma keeps_drafts_ret {A} (a : A) : keeps_drafts (ret a).
Proof. done. Qed.

Lemma keeps_drafts_raise {A} (e : Exn) : keeps_drafts (@raise A e).
Proof. done. Qed.

Lemma keeps_drafts_bind {A B} (m : M A) (k : A -> M B) :
  keeps_drafts m -> (forall a, keeps_drafts (k a)) -> keeps_drafts (bind m k).
Proof.
  intros Hm Hk w. unfold bind. specialize (Hm w).
  destruct (m w) as [[a|e] w']; simpl in *; [by rewrite Hk|done].
Qed.

Lemma keeps_drafts_catch {A} (m : M A) (h : Exn -> M A) :
  keeps_drafts m -> (forall e, keeps_drafts (h e)) -> keeps_drafts (catch m h).
Proof.
  intros Hm Hh w. unfold catch. specialize (Hm w).
  destruct (m w) as [[a|e] w']; simpl in *; [done|by rewrite Hh].
Qed.

Lemma keeps_drafts_reply (r : Reply) : keeps_drafts (reply P r).
Proof. intros w. by rewrite reply_run. Qed.

Lemma keeps_drafts_post_to_channels (user_id : Z) :
  keeps_drafts (post_to_channels P user_id).
Proof. intros w. by destruct (post_to_channels_frame user_id w) as [cs ->]. Qed.

Lemma handle_post_action_keeps_drafts (user_id : Z) (data : pystr) (w : World) :
  posts_data (snd (handle_post_action P user_id data w)) = posts_data w.
Proof.
  revert w. change (keeps_drafts (handle_post_action P user_id data)).
  unfold handle_post_action. apply keeps_drafts_catch.
  - apply keeps_drafts_bind; [apply keeps_drafts_reply|intros _].
    repeat case_bool_decide.
    + apply keeps_drafts_bind; [apply keeps_drafts_reply|intros _].
      apply keeps_drafts_bind; [apply keeps_drafts_post_to_channels|intros [success failed]].
      apply keeps_drafts_bind; [apply keeps_drafts_reply|intros _].
      apply keeps_drafts_ret.
    + apply keeps_drafts_bind; [apply keeps_drafts_reply|intros _].
      apply keeps_drafts_ret.
    + apply keeps_drafts_ret.
  - intros e. apply keeps_drafts_bind; [apply keeps_drafts_reply|intros _].
    apply keeps_drafts_ret.
Qed.

(** C9 (as amended).  Cancelling removes the user's draft from the store and
    ends the wizard, and a broadcast for that user then finds no draft.  The
    delivery choice, whether the post goes out at once or a schedule is asked
    for, leaves the draft store as it was. *)
Theorem draft_destroyed_on_cancel_only (user_id : Z) (data : pystr) (w : World) :
  fst (cancel P user_id w) = Ok END
  /\ posts_data (snd (cancel P user_id w)) = delete user_id (posts_data w)
  /\ post_to_channels P user_id (snd (cancel P user_id w))
     = (Ok (0%nat, [(NA, Some (py "No post data"))]), snd (cancel P user_id w))
  /\ posts_data (snd (handle_post_action P user_id data w)) = posts_data w.
Proof.
  rewrite cancel_run. simpl. split; [done|]. split; [done|].
  split; [|apply handle_post_action_keeps_drafts].
  unfold post_to_channels. unfold_monad. simpl. by rewrite lookup_delete_eq.
Qed.

End DraftLifetime.

(** User 7 with the single channel [@pub], where every post succeeds. *)
Definition pub_world : World :=
  {| posts_data := {[ 7%Z := scenario_draft ]};
     user_channels := {[ 7%Z := [ChanStr (py "@pub")] ]};
     jobs := []; calls := [] |}.

(** C9 as stated fails for the immediate post: the post succeeds in the one
    channel, the wizard ends, and the draft is still in the store; a second
    broadcast finds it and posts it again. *)
Lemma immediate_post_keeps_draft_counterexample :
  fst (handle_post_action scenario_platform 7 (py "post_now") pub_world) = Ok (Some END)
  /\ last (calls (snd (handle_post_action scenario_platform 7 (py "post_now") pub_world)))
     = Some (SendReply (PostComplete 1 []))
  /\ posts_data (snd (handle_post_action scenario_platform 7 (py "post_now") pub_world)) !! 7%Z
     = Some scenario_draft
  /\ fst (post_to_channels scenario_platform 7
            (snd (handle_post_action scenario_platform 7 (py "post_now") pub_world)))
     = Ok (1%nat, []).
Proof. repeat split; vm_compute; reflexivity. Qed.

(** ** The channel registry *)

(** Each user's list holds a channel at most once. *)
Definition registry_ok (w : World) : Prop :=
  forall user_id l, user_channels w !! user_id = Some l -> NoDup l.

(** The channels listed for a user. *)
Definition listed (w : World) (user_id : Z) : list ChannelId :=
  default [] (user_channels w !! user_id).

Lemma py_remove_subset (x y : ChannelId) (l : list ChannelId) :
  y ∈ py_remove x l -> y ∈ l.
Proof.
  induction l as [|z l IH]; [done|]. simpl. case_decide.
  - intros. by apply list_elem_of_further.
  - rewrite !elem_of_cons. intros [->|H']; auto.
Qed.

Lemma py_remove_NoDup (x : ChannelId) (l : list ChannelId) :
  NoDup l -> NoDup (py_remove x l).
Proof.
  induction 1 as [|z l Hz Hl IH]; simpl; [constructor|].
  case_decide; [done|]. constructor; [|done].
  intros Hin. by apply Hz, (py_remove_subset x).
Qed.

Lemma py_remove_gone (x : ChannelId) (l : list ChannelId) :
  NoDup l -> x ∉ py_remove x l.
Proof.
  induction 1 as [|z l Hz Hl IH]; simpl; [apply not_elem_of_nil|].
  case_decide; [by subst|]. by apply not_elem_of_cons.
Qed.

Lemma registry_ok_insert (w : World) (user_id : Z) (l : list ChannelId) :
  registry_ok w -> NoDup l ->
  registry_ok (with_user_channels <[user_id := l]> w).
Proof.
  intros Hok Hl u l'. simpl. rewrite lookup_insert.
  case_decide; [by intros [= <-]|apply Hok].
Qed.

Lemma registry_ok_same (w w' : World) :
  user_channels w' = user_channels w -> registry_ok w -> registry_ok w'.
Proof. unfold registry_ok. by intros ->. Qed.

Section Registry.

Variable P : Platform.

(** The name shown for a channel: its title, or the identifier itself when
    the lookup fails. *)
Definition chat_info (chat_id : ChannelId) : option pystr * option pystr :=
  match get_chat P chat_id with
  | inr title => (title, None)
  | inl e => (Some (str_of_channel chat_id), Some (exn_str (EPlatform e)))
  end.

Lemma get_chat_info_run (chat_id : ChannelId) (w : World) :
  get_chat_info P chat_id w = (Ok (chat_info chat_id), with_call (GetChat chat_id) w).
Proof.
  unfold get_chat_info, call_get_chat, chat_info. unfold_monad. simpl.
  by destruct (get_chat P chat_id).
Qed.

Lemma reply_user_channels (r : Reply) (w : World) :
  user_channels (snd (reply P r w)) = user_channels w.
Proof. by rewrite reply_run. Qed.

(** A handler of the shape [try: body except: reply] changes the registry
    only through its body. *)
Lemma catch_reply_user_channels (m : M unit) (h : Exn -> Reply) (w : World) :
  user_channels (snd (catch m (fun e => reply P (h e)) w))
  = user_channels (snd (m w)).
Proof.
  unfold catch. destruct (m w) as [[[]|e] w']; [done|].
  by rewrite reply_user_channels.
Qed.

Lemma bind_reply_user_channels {A} (m : M A) (k : A -> Reply) (w : World) :
  user_channels (snd ((x <- m ;; reply P (k x)) w))
  = user_channels (snd (m w)).
Proof.
  unfold bind. destruct (m w) as [[a|e] w']; [|done].
  by rewrite reply_user_channels.
Qed.

(** The registry after [add_channel] has read the channel [channel] from its
    argument: the list grows by that channel when it is not yet listed, and
    stays as it is otherwise. *)
Definition registered (user_id : Z) (channel : ChannelId) (w : World)
    : gmap Z (list ChannelId) :=
  if py_in channel (listed w user_id)
  then user_channels w
  else <[user_id := listed w user_id ++ [channel]]> (user_channels w).

Lemma registered_ok (user_id : Z) (channel : ChannelId) (w w' : World) :
  registry_ok w ->
  user_channels w' = registered user_id channel w ->
  registry_ok w'.
Proof.
  intros Hok Hw. unfold registered, py_in, listed in Hw. case_bool_decide as Hin.
  - by apply (registry_ok_same w).
  - intros u l. rewrite Hw, lookup_insert. case_decide; [|apply Hok].
    intros [= <-]. apply NoDup_app. split; [|split].
    + destruct (user_channels w !! user_id) as [l0|] eqn:Hl; simpl; [by eapply Hok|constructor].
    + intros x Hx Hx'. apply list_elem_of_singleton in Hx' as ->. done.
    + apply NoDup_singleton.
Qed.

(** The part of [add_channel] and [handle_channel_forward] that updates the
    list, with the reply chosen from the outcome. *)
Lemma register_user_channels (user_id : Z) (channel : ChannelId)
    (added exists_ : Reply) (w : World) :
  user_channels
    (snd ((l <- channels_of user_id ;;
           if negb (py_in channel l) then append_channel user_id channel ;;; reply P added
           else reply P exists_) w))
  = registered user_id channel w.
Proof.
  unfold registered, listed, channels_of, append_channel, reply. unfold_monad.
  cbv beta iota zeta.
  destruct (user_channels w !! user_id) as [l|] eqn:Hl; cbv beta iota zeta;
    cbv [from_option id].
  - destruct (py_in channel l); cbn [negb]; cbv beta iota zeta.
    + by destruct (deliver P exists_).
    + destruct (deliver P added); cbn; by rewrite Hl.
  - unfold py_in. rewrite bool_decide_eq_false_2 by apply not_elem_of_nil.
    cbn [negb]. cbv beta iota zeta.
    destruct (deliver P added); cbn; rewrite lookup_insert_eq; cbn;
      by rewrite insert_insert_eq.
Qed.

Lemma handle_channel_forward_user_channels (user_id : Z) (msg : Message) (w : World) :
  user_channels (snd (handle_channel_forward P user_id msg w))
  = match m_forward_origin msg with
    | Some (OriginChat channel_id _) => registered user_id (ChanInt channel_id) w
    | _ => user_channels w
    end.
Proof.
  unfold handle_channel_forward. rewrite catch_reply_user_channels.
  destruct (m_forward_origin msg) as [[channel_id title|]|];
    [|by rewrite reply_user_channels..].
  unfold bind at 1. rewrite verify_bot_admin_verdict.
  destruct (verdict P (ChanInt channel_id)) as [[|] error];
    by rewrite register_user_channels.
Qed.

Lemma add_channel_user_channels (user_id : Z) (msg : Message) (args : list pystr)
    (w : World) :
  user_channels (snd (add_channel P user_id msg args w))
  = match m_forward_origin msg, args with
    | Some (OriginChat channel_id _), _ => registered user_id (ChanInt channel_id) w
    | Some OriginOther, _ => user_channels w
    | None, [] => user_channels w
    | None, _ :: _ =>
        match parse_channel (join_space args) with
        | Some channel => registered user_id channel w
        | None => user_channels w
        end
    end.
Proof.
  unfold add_channel. rewrite catch_reply_user_channels.
  destruct (m_forward_origin msg) as [origin|] eqn:Ho.
  - rewrite handle_channel_forward_user_channels, Ho. by destruct origin.
  - destruct args as [|a rest]; [by rewrite reply_user_channels|].
    destruct (parse_channel (join_space (a :: rest))) as [channel|];
      [|by rewrite reply_user_channels].
    unfold bind at 1. rewrite verify_bot_admin_verdict.
    destruct (verdict P channel) as [[|] error]; unfold bind at 1;
      rewrite get_chat_info_run; by rewrite register_user_channels.
Qed.

Lemma remove_channel_user_channels (user_id : Z) (args : list pystr) (w : World) :
  user_channels (snd (remove_channel P user_id args w))
  = match args, user_channels w !! user_id with
    | channel_input :: _, Some l =>
        if py_in (parse_removed channel_input) l
        then <[user_id := py_remove (parse_removed channel_input) l]> (user_channels w)
        else user_channels w
    | _, _ => user_channels w
    end.
Proof.
  unfold remove_channel. rewrite catch_reply_user_channels.
  destruct args as [|channel_input rest]; [by rewrite reply_user_channels|].
  unfold bind at 1, get.
  destruct (user_channels w !! user_id) as [l|] eqn:Hl; [|by rewrite reply_user_channels].
  destruct (py_in (parse_removed channel_input) l); [|by rewrite reply_user_channels].
  unfold bind at 1. rewrite get_chat_info_run. unfold bind, modify.
  rewrite reply_user_channels. simpl. by rewrite Hl.
Qed.

(** The listing: one name lookup and one verification per channel. *)
Fixpoint entries_of (i : nat) (channels : list ChannelId) : list ChannelEntry :=
  match channels with
  | [] => []
  | ch :: rest =>
      {| ce_index := i; ce_channel := ch; ce_name := fst (chat_info ch);
         ce_verification := verdict P ch |} :: entries_of (S i) rest
  end.

Lemma list_entries_run (i : nat) (channels : list ChannelId) (w : World) :
  list_entries P i channels w
  = (Ok (entries_of i channels),
     with_calls (flat_map (fun ch => [GetChat ch; GetChatMember ch]) channels) w).
Proof.
  revert i w. induction channels as [|ch rest IH]; intros i w; simpl.
  - by rewrite with_calls_nil.
  - unfold bind at 1. rewrite get_chat_info_run.
    unfold bind at 1. rewrite verify_bot_admin_verdict.
    unfold bind, ret. rewrite IH. by rewrite with_call_twice, with_calls_app.
Qed.

Lemma manage_channels_run (user_id : Z) (w : World) :
  deliver P (ChannelList (entries_of 1 (listed w user_id))) = None ->
  manage_channels P user_id w
  = (Ok tt,
     with_call (SendReply (ChannelList (entries_of 1 (listed w user_id))))
       (with_calls (flat_map (fun ch => [GetChat ch; GetChatMember ch]) (listed w user_id)) w)).
Proof.
  intros Hd. unfold manage_channels, listed in *. unfold catch, bind at 1, get.
  unfold bind. rewrite list_entries_run, reply_run, Hd. done.
Qed.

Lemma manage_channels_user_channels (user_id : Z) (w : World) :
  user_channels (snd (manage_channels P user_id w)) = user_channels w.
Proof.
  unfold manage_channels. rewrite catch_reply_user_channels.
  unfold bind at 1, get. rewrite bind_reply_user_channels.
  by rewrite list_entries_run.
Qed.

Lemma entries_of_channels (i : nat) (channels : list ChannelId) :
  map ce_channel (entries_of i channels) = channels.
Proof. revert i. induction channels as [|ch rest IH]; intros i; simpl; by rewrite ?IH. Qed.

Lemma entries_of_once (i : nat) (l : list ChannelId) (channel : ChannelId) :
  channel ∉ l ->
  length (List.filter (fun e => bool_decide (ce_channel e = channel))
            (entries_of i (l ++ [channel]))) = 1%nat.
Proof.
  revert i. induction l as [|c l IH]; intros i Hin; simpl.
  - by rewrite bool_decide_eq_true_2.
  - apply not_elem_of_cons in Hin as [Hne Hin].
    rewrite bool_decide_eq_false_2 by done. by apply IH.
Qed.

(** What [add_channel] answers: for a channel it has just added (with the
    warning when the bot cannot post there), and for one already listed. *)
Definition added_reply (channel : ChannelId) : Reply :=
  if is_admin P channel then ChannelAdded (fst (chat_info channel)) channel
  else ChannelAddedWarning (fst (chat_info channel)) channel (snd (verdict P channel)).

Definition exists_reply (channel : ChannelId) : Reply :=
  ChannelExists (fst (chat_info channel)) (is_admin P channel).

Definition looked_up (channel : ChannelId) (w : World) : World :=
  with_call (GetChat channel) (with_call (GetChatMember channel) w).

Lemma add_channel_new (user_id : Z) (msg : Message) (args : list pystr)
    (channel : ChannelId) (w : World) :
  m_forward_origin msg = None -> args <> [] ->
  parse_channel (join_space args) = Some channel ->
  channel ∉ listed w user_id ->
  deliver P (added_reply channel) = None ->
  add_channel P user_id msg args w
  = (Ok tt,
     with_call (SendReply (added_reply channel))
       (with_user_channels <[user_id := listed w user_id ++ [channel]]>
          (looked_up channel w))).
Proof.
  intros Ho Ha Hp Hin Hd. unfold add_channel. rewrite Ho.
  destruct args as [|a rest]; [done|]. rewrite Hp.
  unfold catch. unfold bind at 1. rewrite verify_bot_admin_verdict.
  unfold added_reply, is_admin in Hd |- *.
  destruct (verdict P channel) as [adm error] eqn:Hv. cbn [fst snd] in Hd |- *.
  unfold bind at 1. rewrite get_chat_info_run.
  unfold channels_of, append_channel, reply, listed, looked_up in Hin |- *.
  unfold_monad. cbv beta iota zeta. cbn [user_channels with_call].
  destruct (user_channels w !! user_id) as [l|] eqn:Hl; cbv [from_option id] in Hin |- *;
    cbv beta iota zeta.
  - unfold py_in. rewrite bool_decide_eq_false_2 by done.
    cbn [negb]. cbv beta iota zeta.
    destruct adm; rewrite Hd; cbv beta iota zeta; unfold with_user_channels, with_call;
      cbn [user_channels posts_data jobs calls]; by rewrite Hl.
  - unfold py_in. rewrite bool_decide_eq_false_2 by apply not_elem_of_nil.
    cbn [negb]. cbv beta iota zeta.
    destruct adm; rewrite Hd; cbv beta iota zeta; unfold with_user_channels, with_call;
      cbn [user_channels posts_data jobs calls];
      by rewrite lookup_insert_eq, insert_insert_eq.
Qed.

Lemma add_channel_again (user_id : Z) (msg : Message) (args : list pystr)
    (channel : ChannelId) (w : World) :
  m_forward_origin msg = None -> args <> [] ->
  parse_channel (join_space args) = Some channel ->
  channel ∈ listed w user_id ->
  deliver P (exists_reply channel) = None ->
  add_channel P user_id msg args w
  = (Ok tt, with_call (SendReply (exists_reply channel)) (looked_up channel w)).
Proof.
  intros Ho Ha Hp Hin Hd. unfold add_channel. rewrite Ho.
  destruct args as [|a rest]; [done|]. rewrite Hp.
  unfold catch. unfold bind at 1. rewrite verify_bot_admin_verdict.
  unfold exists_reply, is_admin in Hd |- *.
  destruct (verdict P channel) as [adm error] eqn:Hv. cbn [fst snd] in Hd |- *.
  unfold bind at 1. rewrite get_chat_info_run.
  unfold channels_of, append_channel, reply, listed, looked_up in Hin |- *.
  unfold_monad. cbv beta iota zeta. cbn [user_channels with_call].
  destruct (user_channels w !! user_id) as [l|] eqn:Hl; cbv [from_option id] in Hin |- *;
    cbv beta iota zeta; [|by apply elem_of_nil in Hin].
  unfold py_in. rewrite bool_decide_eq_true_2 by done. cbn [negb]. cbv beta iota zeta.
  by rewrite Hd.
Qed.

(** C6.  Every registry operation keeps each list free of repetitions.
    Adding a channel that is not yet listed appends it and answers that it was
    added; adding it again changes no list and answers that the channel
    already exists, with the current verification status; the listing then
    shows that channel exactly once.  The handle ["@chan"] is read as the
    channel [@chan]. *)
Theorem registry_lists_each_channel_once (user_id : Z) (msg : Message)
    (args : list pystr) (channel : ChannelId) (w : World) :
  (registry_ok w ->
   registry_ok (snd (add_channel P user_id msg args w))
   /\ registry_ok (snd (handle_channel_forward P user_id msg w))
   /\ registry_ok (snd (remove_channel P user_id args w))
   /\ registry_ok (snd (manage_channels P user_id w)))
  /\ (m_forward_origin msg = None -> args <> [] ->
      parse_channel (join_space args) = Some channel ->
      channel ∉ listed w user_id ->
      deliver P (added_reply channel) = None ->
      deliver P (exists_reply channel) = None ->
      let first := add_channel P user_id msg args w in
      let second := add_channel P user_id msg args (snd first) in
      let listing := entries_of 1 (listed (snd second) user_id) in
      fst first = Ok tt
      /\ last (calls (snd first)) = Some (SendReply (added_reply channel))
      /\ listed (snd first) user_id = listed w user_id ++ [channel]
      /\ fst second = Ok tt
      /\ last (calls (snd second)) = Some (SendReply (exists_reply channel))
      /\ user_channels (snd second) = user_channels (snd first)
      /\ (deliver P (ChannelList listing) = None ->
          last (calls (snd (manage_channels P user_id (snd second))))
          = Some (SendReply (ChannelList listing)))
      /\ length (List.filter (fun e => bool_decide (ce_channel e = channel)) listing) = 1%nat)
  /\ parse_channel (join_space [py "@chan"]) = Some (ChanStr (py "@chan")).
Proof.
  split; [|split; [|by vm_compute]].
  - intros Hok. repeat split.
    + destruct (m_forward_origin msg) as [[id t|]|] eqn:Ho; [| |destruct args as [|a rest] eqn:Ha];
        try (eapply registry_ok_same; [|exact Hok];
             rewrite add_channel_user_channels, Ho; done).
      * eapply (registered_ok user_id (ChanInt id)); [exact Hok|].
        by rewrite add_channel_user_channels, Ho.
      * destruct (parse_channel (join_space (a :: rest))) as [c|] eqn:Hp.
        -- eapply (registered_ok user_id c); [exact Hok|].
           by rewrite add_channel_user_channels, Ho, Hp.
        -- eapply registry_ok_same; [|exact Hok].
           by rewrite add_channel_user_channels, Ho, Hp.
    + destruct (m_forward_origin msg) as [[id t|]|] eqn:Ho;
        try (eapply registry_ok_same; [|exact Hok];
             rewrite handle_channel_forward_user_channels, Ho; done).
      eapply (registered_ok user_id (ChanInt id)); [exact Hok|].
      by rewrite handle_channel_forward_user_channels, Ho.
    + intros u l. rewrite remove_channel_user_channels.
      destruct args as [|ci rest]; [apply Hok|].
      destruct (user_channels w !! user_id) as [l0|] eqn:Hl; [|apply Hok].
      destruct (py_in (parse_removed ci) l0); [|apply Hok].
      rewrite lookup_insert. case_decide; [|apply Hok].
      intros [= <-]. apply py_remove_NoDup. by eapply Hok.
    + eapply registry_ok_same; [|exact Hok]. apply manage_channels_user_channels.
  - intros Ho Ha Hp Hin Hadd Hex. cbv zeta.
    rewrite (add_channel_new _ _ _ _ _ Ho Ha Hp Hin Hadd). simpl fst. simpl snd.
    set (w1 := with_call _ _).
    assert (listed w1 user_id = listed w user_id ++ [channel]) as Hl1.
    { unfold listed, w1. simpl. by rewrite lookup_insert_eq. }
    assert (channel ∈ listed w1 user_id) as Hin1.
    { rewrite Hl1. apply elem_of_app. right. apply list_elem_of_here. }
    rewrite (add_channel_again _ _ _ _ _ Ho Ha Hp Hin1 Hex). simpl fst. simpl snd.
    set (w2 := with_call _ _).
    assert (listed w2 user_id = listed w user_id ++ [channel]) as Hl2 by exact Hl1.
    rewrite Hl2.
    split; [done|]. split; [by unfold w1; simpl; rewrite last_snoc|].
    split; [done|]. split; [done|].
    split; [by unfold w2; simpl; rewrite last_snoc|]. split; [done|]. split.
    + intros Hd. rewrite manage_channels_run by (by rewrite Hl2).
      simpl. rewrite Hl2. by rewrite last_snoc.
    + by apply entries_of_once.
Qed.

End Registry.

(** ** The theorems at the concrete user *)






(** The underscore of the title [Hello_world!] stands at position 6 of the
    escaped title, right after its marker. *)
Lemma format_post_escapes_user_text_witness :
  marked_at (format_post scenario_draft) (length frame_top + 6).
Proof.
  apply (proj1 (proj2 (format_post_escapes_user_text scenario_draft [])) 6%nat 95).
  - reflexivity.
  - reflexivity.
Defined.

Lemma receive_schedule_time_validates_witness :
  receive_schedule_time scenario_platform 7 (text_message (py "25:00")) scenario_world
  = (Ok CHANNELS, with_call (SendReply InvalidTime) scenario_world).
Proof.
  apply (proj1 (receive_schedule_time_validates scenario_platform 7 (py "25:00")
                  scenario_world)).
  - reflexivity.
  - reflexivity.
Defined.



(** Adding [@chan] twice for user 7, then listing. *)
Lemma registry_lists_each_channel_once_witness :
  let first := add_channel scenario_platform 7 (text_message []) [py "@chan"] scenario_world in
  let second := add_channel scenario_platform 7 (text_message []) [py "@chan"] (snd first) in
  let listing := entries_of scenario_platform 1 (listed (snd second) 7) in
  fst first = Ok tt
  /\ last (calls (snd first))
     = Some (SendReply (added_reply scenario_platform (ChanStr (py "@chan"))))
  /\ listed (snd first) 7 = listed scenario_world 7 ++ [ChanStr (py "@chan")]
  /\ fst second = Ok tt
  /\ last (calls (snd second))
     = Some (SendReply (exists_reply scenario_platform (ChanStr (py "@chan"))))
  /\ user_channels (snd second) = user_channels (snd first)
  /\ (deliver scenario_platform (ChannelList listing) = None ->
      last (calls (snd (manage_channels scenario_platform 7 (snd second))))
      = Some (SendReply (ChannelList listing)))
  /\ length (List.filter (fun e => bool_decide (ce_channel e = ChanStr (py "@chan"))) listing)
     = 1%nat.
Proof.
  apply (proj1 (proj2 (registry_lists_each_channel_once scenario_platform 7
                         (text_message []) [py "@chan"] (ChanStr (py "@chan"))
                         scenario_world))).
  - reflexivity.
  - discriminate.
  - reflexivity.
  - apply (bool_decide_unpack _). vm_compute. reflexivity.
  - reflexivity.
  - reflexivity.
Defined.

(** * Further properties of the code *)

(** ** The broadcast in general *)

Section BroadcastOutcome.

Variable P : Platform.

(** What one channel contributes to the failure report: nothing when the bot
    is verified and the send goes through, the classified send error when the
    send fails, the verification reason when the bot is not verified. *)
Definition channel_failure (caption : pystr) (thumbnail : Thumbnail) (c : ChannelId)
    : option Failure :=
  if is_admin P c then
    match send_media P (th_type thumbnail) c (th_file_id thumbnail) caption with
    | None => None
    | Some e => Some (c, Some (send_failure_reason e))
    end
  else Some (verification_failure P c).

Definition posted (caption : pystr) (thumbnail : Thumbnail) (c : ChannelId) : bool :=
  match channel_failure caption thumbnail c with None => true | Some _ => false end.

Lemma post_one_result_failure (caption : pystr) (thumbnail : Thumbnail)
    (acc : nat * list Failure) (c : ChannelId) :
  post_one_result P caption thumbnail acc c
  = match channel_failure caption thumbnail c with
    | None => (S (fst acc), snd acc)
    | Some f => (fst acc, snd acc ++ [f])
    end.
Proof.
  unfold post_one_result, channel_failure, is_admin, verification_failure.
  destruct (fst (verdict P c)); [|done]. by destruct (send_media P _ _ _ _).
Qed.

Lemma post_loop_outcome (caption : pystr) (thumbnail : Thumbnail)
    (channels : list ChannelId) (acc : nat * list Failure) :
  fold_left (post_one_result P caption thumbnail) channels acc
  = ((fst acc + length (List.filter (posted caption thumbnail) channels))%nat,
     snd acc ++ omap (channel_failure caption thumbnail) channels).
Proof.
  revert acc. induction channels as [|c channels IH]; intros [sc fl].
  - simpl. rewrite app_nil_r. f_equal. lia.
  - simpl fold_left. rewrite IH, post_one_result_failure. clear IH.
    cbn [List.filter omap list_omap]. unfold posted at 2.
    destruct (channel_failure caption thumbnail c) as [f|]; cbn [fst snd length].
    + rewrite <- app_assoc. done.
    + f_equal. lia.
Qed.

(** The outcome of a broadcast whose preconditions hold: the successes are the
    channels where the bot is verified and the send went through; the failure
    report lists every other channel, in the order of the list, with the
    verification reason or the classified send error; whatever the platform
    answers the call returns, and successes and failures add up to the number
    of channels. *)
Theorem post_to_channels_outcome (user_id : Z) (w : World) (post_data : Draft)
    (thumbnail : Thumbnail) (channels : list ChannelId) :
  posts_data w !! user_id = Some post_data ->
  d_thumbnail post_data = Some thumbnail ->
  user_channels w !! user_id = Some channels ->
  channels <> [] ->
  let caption := format_post post_data in
  let failed := omap (channel_failure caption thumbnail) channels in
  let success := length (List.filter (posted caption thumbnail) channels) in
  fst (post_to_channels P user_id w) = Ok (success, failed)
  /\ (success + length failed = length channels)%nat
  /\ map fst failed = List.filter (fun c => negb (posted caption thumbnail c)) channels.
Proof.
  intros Hd Ht Hc Hne. cbv zeta.
  rewrite (post_to_channels_run P _ _ _ _ _ Hd Ht Hc Hne). cbn [fst].
  rewrite post_loop_outcome. cbn [fst snd app]. split; [done|].
  clear. set (caption := format_post post_data).
  induction channels as [|c channels [IH1 IH2]]; [done|].
  cbn [List.filter omap list_omap].
  assert (forall f, channel_failure caption thumbnail c = Some f -> fst f = c) as Hfst.
  { unfold channel_failure, verification_failure. intros f.
    destruct (is_admin P c); [destruct (send_media P _ _ _ _)|]; by intros [= <-]. }
  destruct (channel_failure caption thumbnail c) as [f|] eqn:Hf.
  - assert (posted caption thumbnail c = false) as -> by (unfold posted; by rewrite Hf).
    cbn [negb length map]. rewrite (Hfst f eq_refl). split; [lia|by f_equal].
  - assert (posted caption thumbnail c = true) as -> by (unfold posted; by rewrite Hf).
    cbn [negb length map]. split; [lia|done].
Qed.

(** Whatever the platform answers, [post_to_channels] returns an outcome to
    its caller, and it changes nothing of the bot's state but the log of
    requests. *)
Theorem post_to_channels_contained (user_id : Z) (w : World) :
  exists outcome new_calls,
    post_to_channels P user_id w = (Ok outcome, with_calls new_calls w).
Proof.
  destruct (post_to_channels_total P user_id w) as (r & w' & Hrun).
  destruct (post_to_channels_frame P user_id w) as [cs Hcs].
  rewrite Hrun in Hcs. simpl in Hcs. subst w'. eauto.
Qed.

(** A verification never raises and costs one lookup; a negative verdict
    always comes with a reason, a positive one with none. *)
Theorem verify_bot_admin_verdict_reason (chat_id : ChannelId) (w : World) :
  exists admin reason,
    verify_bot_admin P chat_id w
    = (Ok (admin, reason), with_call (GetChatMember chat_id) w)
    /\ (admin = true <-> reason = None).
Proof.
  unfold verify_bot_admin, call_get_chat_member. unfold_monad.
  cbn [fst snd]. cbv beta iota zeta.
  destruct (get_chat_member P chat_id) as [[msg|msg|msg]|member]; cbv beta iota zeta.
  - by eexists false, _.
  - destruct (contains _ _); by eexists false, _.
  - by eexists false, _.
  - repeat case_bool_decide; cbv beta iota zeta; try by (eexists true, None).
    + destruct (can_post_messages member) as [[[|]|]|]; cbn;
        try (by eexists true, None); by eexists false, _.
    + by eexists false, _.
Qed.

End BroadcastOutcome.

(** A platform on which the send to [@closed] is refused. *)
Definition outage_platform : Platform :=
  {| get_chat_member := get_chat_member scenario_platform;
     get_chat := get_chat scenario_platform;
     send_media := fun _ c _ _ =>
       if decide (c = ChanStr (py "@closed")) then Some (BadRequest (py "Chat was deleted"))
       else None;
     deliver := fun _ => None |}.

Definition outage_channels : list ChannelId :=
  [ChanInt 100; ChanStr (py "@pub"); ChanStr (py "@closed")].

Definition outage_world : World :=
  {| posts_data := {[ 7%Z := scenario_draft ]};
     user_channels := {[ 7%Z := outage_channels ]};
     jobs := []; calls := [] |}.

Lemma post_to_channels_outcome_witness :
  fst (post_to_channels outage_platform 7 outage_world)
  = Ok (length (List.filter (posted outage_platform (format_post scenario_draft)
                               scenario_thumbnail) outage_channels),
        omap (channel_failure outage_platform (format_post scenario_draft)
                scenario_thumbnail) outage_channels)
  /\ omap (channel_failure outage_platform (format_post scenario_draft)
             scenario_thumbnail) outage_channels
     = [(ChanInt 100, Some not_a_member);
        (ChanStr (py "@closed"), Some (py "Invalid request: Chat was deleted"))].
Proof.
  split.
  - apply (post_to_channels_outcome outage_platform 7 outage_world scenario_draft
             scenario_thumbnail outage_channels); (reflexivity || discriminate).
  - vm_compute. reflexivity.
Defined.

(** ** More on escaping *)

Lemma length_escape_flat_map (text : pystr) :
  length (flat_map escape_char text)
  = (length text + length (List.filter reserved text))%nat.
Proof.
  induction text as [|c text IH]; [done|]. cbn [flat_map List.filter].
  rewrite length_app, IH. unfold escape_char.
  destruct (reserved c); cbn [length]; lia.
Qed.

(** Escaping adds one character per reserved character and nothing else. *)
Theorem escape_markdown_length (text : pystr) :
  length (escape_markdown text)
  = (length text + length (List.filter reserved text))%nat.
Proof. rewrite escape_markdown_flat_map. apply length_escape_flat_map. Qed.

(** The rendered post is 147 characters of frame plus the two escaped fields,
    where a missing title counts as [Untitled] and a missing link as the empty
    text. *)
Theorem format_post_length (post_data : Draft) :
  let title := default (py "Untitled") (d_title post_data) in
  let link := default [] (d_video_link post_data) in
  length (format_post post_data)
  = (147 + (length title + length (List.filter reserved title))
     + (length link + length (List.filter reserved link)))%nat.
Proof.
  cbv zeta. rewrite format_post_frame, !length_app, !escape_markdown_length.
  change (length frame_top) with 31%nat. change (length post_middle) with 45%nat.
  change (length frame_bottom) with 71%nat. lia.
Qed.

Lemma flat_map_escape_head (text rest : pystr) (x : N) :
  flat_map escape_char text = x :: rest -> reserved x = false.
Proof.
  destruct text as [|c text]; [done|]. cbn [flat_map]. unfold escape_char.
  destruct (reserved c) eqn:Hc; cbn [app]; intros [= <- _]; [reflexivity|done].
Qed.

Lemma flat_map_escape_inj (s t : pystr) :
  flat_map escape_char s = flat_map escape_char t -> s = t.
Proof.
  revert t. induction s as [|a s IH]; intros [|b t]; cbn [flat_map]; try done.
  - unfold escape_char. by destruct (reserved b).
  - unfold escape_char. by destruct (reserved a).
  - unfold escape_char at 1 3.
    destruct (reserved a) eqn:Ha, (reserved b) eqn:Hb; cbn [app].
    + intros [= -> H]. f_equal. by apply IH.
    + intros [= <- H]. symmetry in H. apply flat_map_escape_head in H. congruence.
    + intros [= -> H]. apply flat_map_escape_head in H. congruence.
    + intros [= -> H]. f_equal. by apply IH.
Qed.

(** Escaping loses nothing: two different texts never escape to the same
    text. *)
Theorem escape_markdown_injective (s t : pystr) :
  escape_markdown s = escape_markdown t -> s = t.
Proof. rewrite !escape_markdown_flat_map. apply flat_map_escape_inj. Qed.

Lemma escape_markdown_injective_witness :
  [95; 42] = [95; 42].
Proof. apply (escape_markdown_injective [95; 42] [95; 42]). reflexivity. Defined.

(** A backslash the user typed is left as it is, also before a reserved
    character: the two characters [\] [c] become [\] [\] [c], so the marker
    put before [c] now follows another backslash. *)
Theorem escape_markdown_keeps_backslash (c : N) (text : pystr) :
  reserved c = true ->
  escape_markdown (backslash :: c :: text)
  = backslash :: backslash :: c :: escape_markdown text.
Proof.
  intros Hc. rewrite !escape_markdown_flat_map. cbn [flat_map].
  unfold escape_char at 1 2. by rewrite backslash_not_reserved, Hc.
Qed.

Lemma escape_markdown_keeps_backslash_witness :
  escape_markdown (backslash :: 95 :: py "x")
  = backslash :: backslash :: 95 :: escape_markdown (py "x").
Proof. apply (escape_markdown_keeps_backslash 95 (py "x")). reflexivity. Defined.

(** ** More on the registry *)

Lemma py_remove_other (x y : ChannelId) (l : list ChannelId) :
  y <> x -> (y ∈ py_remove x l <-> y ∈ l).
Proof.
  intros Hne. induction l as [|z l IH]; [done|]. cbn [py_remove]. case_decide.
  - subst z. rewrite elem_of_cons. split; [auto|]. intros [?|?]; done.
  - rewrite !elem_of_cons, IH. done.
Qed.

Section RegistryMore.

Variable P : Platform.

(** Removing a channel: the channel named by the first argument leaves the
    user's list, every other channel of the list stays, and the lists of the
    other users are not touched; when the channel is not listed nothing
    changes.  This does not depend on the replies being delivered. *)
Theorem remove_channel_removes (user_id : Z) (channel_input : pystr)
    (rest : list pystr) (w : World) (l : list ChannelId) :
  user_channels w !! user_id = Some l ->
  NoDup l ->
  let channel := parse_removed channel_input in
  let w' := snd (remove_channel P user_id (channel_input :: rest) w) in
  (channel ∉ listed w' user_id)
  /\ (forall c, c <> channel -> (c ∈ listed w' user_id <-> c ∈ l))
  /\ (channel ∉ l -> user_channels w' = user_channels w)
  /\ (forall other, other <> user_id ->
        user_channels w' !! other = user_channels w !! other).
Proof.
  intros Hl Hnd. cbv zeta. unfold listed.
  rewrite remove_channel_user_channels, Hl. unfold py_in.
  case_bool_decide as Hin.
  - rewrite lookup_insert_eq. cbn [default from_option id].
    split; [by apply py_remove_gone|]. split; [intros c Hc; by apply py_remove_other|].
    split; [done|]. intros other Ho. by rewrite lookup_insert_ne.
  - rewrite Hl. cbn. split; [done|]. split; [done|]. done.
Qed.

(** The identifier [add_channel] reads from its argument is either the
    integer [int()] gives for the whole argument or a handle that starts with
    [@]. *)
Theorem parse_channel_shape (channel_input : pystr) (channel : ChannelId) :
  parse_channel channel_input = Some channel ->
  (exists n, channel = ChanInt n /\ py_int channel_input = Some n)
  \/ (exists handle, channel = ChanStr (64 :: handle)).
Proof.
  unfold parse_channel.
  destruct (contains (py "t.me/") channel_input || contains (py "telegram.me/") channel_input).
  { intros [= <-]. right. by eexists. }
  destruct (startswith (py "-100") channel_input || isdigit (lstrip_minus channel_input)).
  { destruct (py_int channel_input) as [n|]; [|done]. intros [= <-]. left. by exists n. }
  destruct (startswith (py "@") channel_input) eqn:Hat.
  - intros [= <-]. right. destruct channel_input as [|c rest']; [done|].
    cbn in Hat. apply andb_prop in Hat as [Hc _]. apply N.eqb_eq in Hc as <-.
    by eexists.
  - intros [= <-]. right. by eexists.
Qed.

(** A numeric-looking argument that [int()] refuses is answered with the
    format error; no lookup is issued and nothing is registered. *)
Theorem add_channel_invalid_id (user_id : Z) (msg : Message) (args : list pystr)
    (w : World) :
  m_forward_origin msg = None -> args <> [] ->
  parse_channel (join_space args) = None ->
  deliver P InvalidChannelId = None ->
  add_channel P user_id msg args w
  = (Ok tt, with_call (SendReply InvalidChannelId) w).
Proof.
  intros Ho Ha Hp Hd. unfold add_channel, reply. rewrite Ho.
  destruct args as [|a rest]; [done|]. rewrite Hp. unfold_monad.
  cbv beta iota zeta. by rewrite Hd.
Qed.

(** The registry handlers of one user leave the lists of all other users
    as they are. *)
Theorem registry_handlers_per_user (user_id other : Z) (msg : Message)
    (args : list pystr) (w : World) :
  other <> user_id ->
  user_channels (snd (add_channel P user_id msg args w)) !! other
  = user_channels w !! other
  /\ user_channels (snd (handle_channel_forward P user_id msg w)) !! other
     = user_channels w !! other
  /\ user_channels (snd (remove_channel P user_id args w)) !! other
     = user_channels w !! other
  /\ user_channels (snd (manage_channels P user_id w)) !! other
     = user_channels w !! other.
Proof.
  intros Hne.
  assert (forall c, registered user_id c w !! other = user_channels w !! other) as Hreg.
  { intros c. unfold registered. destruct (py_in c (listed w user_id)); [done|].
    by rewrite lookup_insert_ne. }
  split; [|split; [|split]].
  - rewrite add_channel_user_channels.
    destruct (m_forward_origin msg) as [[id t|]|]; [by rewrite Hreg|done|].
    destruct args as [|a rest]; [done|].
    destruct (parse_channel (join_space (a :: rest))); [by rewrite Hreg|done].
  - rewrite handle_channel_forward_user_channels.
    destruct (m_forward_origin msg) as [[id t|]|]; [by rewrite Hreg|done..].
  - rewrite remove_channel_user_channels.
    destruct args as [|ci rest]; [done|].
    destruct (user_channels w !! user_id) as [l|]; [|done].
    destruct (py_in (parse_removed ci) l); [|done]. by rewrite lookup_insert_ne.
  - by rewrite manage_channels_user_channels.
Qed.

End RegistryMore.

Lemma remove_channel_removes_witness :
  ChanStr (py "@pub")
  ∉ listed (snd (remove_channel scenario_platform 7 [py "@pub"] scenario_world)) 7.
Proof.
  apply (remove_channel_removes scenario_platform 7 (py "@pub") [] scenario_world
           scenario_channels).
  - reflexivity.
  - apply (bool_decide_unpack _). vm_compute. reflexivity.
Defined.

Lemma parse_channel_shape_witness :
  (exists n, ChanInt (-1001234567890) = ChanInt n
             /\ py_int (py "-1001234567890") = Some n)
  \/ (exists handle, ChanInt (-1001234567890) = ChanStr (64 :: handle)).
Proof. apply (parse_channel_shape (py "-1001234567890")). reflexivity. Defined.

Lemma add_channel_invalid_id_witness :
  add_channel scenario_platform 7 (text_message []) [py "-100abc"] scenario_world
  = (Ok tt, with_call (SendReply InvalidChannelId) scenario_world).
Proof.
  apply (add_channel_invalid_id scenario_platform 7 (text_message []) [py "-100abc"]
           scenario_world); (reflexivity || discriminate).
Defined.

Lemma registry_handlers_per_user_witness :
  user_channels (snd (add_channel scenario_platform 7 (text_message []) [py "@chan"]
                        scenario_world)) !! 8%Z
  = user_channels scenario_world !! 8%Z.
Proof.
  apply (registry_handlers_per_user scenario_platform 7 8 (text_message []) [py "@chan"]
           scenario_world).
  discriminate.
Defined.

(** ** More on the wizard *)

Section WizardMore.

Variable P : Platform.

(** Computations that leave the drafts of every user but [user_id] alone. *)
Definition drafts_elsewhere {A} (user_id : Z) (m : M A) : Prop :=
  forall w other, other <> user_id ->
    posts_data (snd (m w)) !! other = posts_data w !! other.

Lemma drafts_elsewhere_ret {A} (u : Z) (a : A) : drafts_elsewhere u (ret a).
Proof. done. Qed.

Lemma drafts_elsewhere_raise {A} (u : Z) (e : Exn) : drafts_elsewhere u (@raise A e).
Proof. done. Qed.

Lemma drafts_elsewhere_get (u : Z) : drafts_elsewhere u get.
Proof. done. Qed.

Lemma drafts_elsewhere_bind {A B} (u : Z) (m : M A) (k : A -> M B) :
  drafts_elsewhere u m -> (forall a, drafts_elsewhere u (k a)) ->
  drafts_elsewhere u (bind m k).
Proof.
  intros Hm Hk w other Ho. unfold bind. specialize (Hm w other Ho).
  destruct (m w) as [[a|e] w']; cbn [snd] in *; [by rewrite Hk|done].
Qed.

Lemma drafts_elsewhere_catch {A} (u : Z) (m : M A) (h : Exn -> M A) :
  drafts_elsewhere u m -> (forall e, drafts_elsewhere u (h e)) ->
  drafts_elsewhere u (catch m h).
Proof.
  intros Hm Hh w other Ho. unfold catch. specialize (Hm w other Ho).
  destruct (m w) as [[a|e] w']; cbn [snd] in *; [done|by rewrite Hh].
Qed.

Lemma drafts_elsewhere_reply (u : Z) (r : Reply) : drafts_elsewhere u (reply P r).
Proof. intros w other _. by rewrite reply_run. Qed.

Lemma drafts_elsewhere_insert (u : Z) (d : Draft) :
  drafts_elsewhere u (modify (with_posts_data <[u := d]>)).
Proof. intros w other Ho. cbn. by rewrite lookup_insert_ne. Qed.

Lemma drafts_elsewhere_delete (u : Z) :
  drafts_elsewhere u (modify (with_posts_data (delete u))).
Proof. intros w other Ho. cbn. by rewrite lookup_delete_ne. Qed.

Lemma drafts_elsewhere_job (u : Z) (j : Job) : drafts_elsewhere u (modify (with_job j)).
Proof. done. Qed.

Lemma drafts_elsewhere_update (u : Z) (f : Draft -> Draft) :
  drafts_elsewhere u (update_draft u f).
Proof.
  unfold update_draft, draft_of. apply drafts_elsewhere_bind.
  - apply drafts_elsewhere_bind; [apply drafts_elsewhere_get|].
    intros w0. destruct (posts_data w0 !! u); [apply drafts_elsewhere_ret|apply drafts_elsewhere_raise].
  - intros d. apply drafts_elsewhere_insert.
Qed.

Lemma drafts_elsewhere_keeps {A} (u : Z) (m : M A) :
  keeps_drafts m -> drafts_elsewhere u m.
Proof. intros Hm w other _. by rewrite Hm. Qed.

Ltac elsewhere :=
  repeat first
    [ apply drafts_elsewhere_ret | apply drafts_elsewhere_raise
    | apply drafts_elsewhere_get | apply drafts_elsewhere_reply
    | apply drafts_elsewhere_insert | apply drafts_elsewhere_delete
    | apply drafts_elsewhere_job | apply drafts_elsewhere_update
    | apply drafts_elsewhere_catch | apply drafts_elsewhere_bind
    | case_match
    | match goal with |- forall _, _ => intros ? end ].

(** The wizard handlers of one user never touch the draft of another user,
    whatever the input and whatever the platform answers. *)
Theorem wizard_handlers_per_user (user_id : Z) (msg : Message) (data : pystr) :
  drafts_elsewhere user_id (new_post P user_id)
  /\ drafts_elsewhere user_id (receive_thumbnail P user_id msg)
  /\ drafts_elsewhere user_id (receive_video_link P user_id msg)
  /\ drafts_elsewhere user_id (receive_title P user_id msg)
  /\ drafts_elsewhere user_id (handle_post_action P user_id data)
  /\ drafts_elsewhere user_id (receive_schedule_time P user_id msg)
  /\ drafts_elsewhere user_id (cancel P user_id).
Proof.
  repeat split.
  - unfold new_post. elsewhere.
  - unfold receive_thumbnail. elsewhere.
  - unfold receive_video_link, stripped_text. elsewhere.
  - unfold receive_title, stripped_text, draft_of, item. elsewhere.
  - apply drafts_elsewhere_keeps. intros w. apply handle_post_action_keeps_drafts.
  - unfold receive_schedule_time, stripped_text, unpack_hour_minute. elsewhere.
  - unfold cancel. elsewhere.
Qed.

End WizardMore.

Section WizardFlow.

Variable P : Platform.

(** The thumbnail [receive_thumbnail] takes from a message: the largest size
    of a photo if there is a photo, else the video, else the animation. *)
Definition thumbnail_of (msg : Message) : option Thumbnail :=
  match last (m_photo msg), m_video msg, m_animation msg with
  | Some file_id, _, _ => Some {| th_type := photo; th_file_id := file_id |}
  | None, Some file_id, _ => Some {| th_type := video; th_file_id := file_id |}
  | None, None, Some file_id => Some {| th_type := animation; th_file_id := file_id |}
  | None, None, None => None
  end.

Lemma new_post_run (user_id : Z) (w : World) :
  (listed w user_id = [] ->
   deliver P NoChannelsConfigured = None ->
   new_post P user_id w = (Ok END, with_call (SendReply NoChannelsConfigured) w))
  /\ (listed w user_id <> [] ->
      deliver P AskThumbnail = None ->
      new_post P user_id w
      = (Ok THUMBNAIL,
         with_call (SendReply AskThumbnail)
           (with_posts_data <[user_id := empty_draft]> w))).
Proof.
  unfold new_post, listed, reply. unfold_monad. cbv beta iota zeta.
  destruct (user_channels w !! user_id) as [[|c l]|]; cbn [default from_option id];
    split; intros Hl Hd; try done; cbv beta iota zeta; by rewrite Hd.
Qed.

(** [/newpost]: without a channel the wizard does not start and the drafts are
    left alone; with one, the user's draft is replaced by an empty one and the
    wizard asks for the thumbnail. *)
Theorem new_post_entry (user_id : Z) (w : World) :
  (listed w user_id = [] ->
   deliver P NoChannelsConfigured = None ->
   new_post P user_id w = (Ok END, with_call (SendReply NoChannelsConfigured) w))
  /\ (listed w user_id <> [] ->
      deliver P AskThumbnail = None ->
      new_post P user_id w
      = (Ok THUMBNAIL,
         with_call (SendReply AskThumbnail)
           (with_posts_data <[user_id := empty_draft]> w))).
Proof. exact (new_post_run user_id w). Qed.

(** Starting a new post empties the user's draft whether or not the prompt
    reaches the user, so a broadcast that runs afterwards (a scheduled job of
    the same user, say) finds no post data and issues no request. *)
Theorem new_post_resets_draft (user_id : Z) (w : World) :
  listed w user_id <> [] ->
  posts_data (snd (new_post P user_id w)) = <[user_id := empty_draft]> (posts_data w)
  /\ post_to_channels P user_id (snd (new_post P user_id w))
     = (Ok (0%nat, [(NA, Some (py "No post data"))]), snd (new_post P user_id w)).
Proof.
  intros Hl.
  assert (posts_data (snd (new_post P user_id w)) = <[user_id := empty_draft]> (posts_data w))
    as Hp.
  { unfold new_post, listed, reply in *. unfold_monad. cbv beta iota zeta.
    destruct (user_channels w !! user_id) as [[|c l]|]; cbn [default from_option id] in Hl;
      try done. cbv beta iota zeta.
    destruct (deliver P AskThumbnail); cbv beta iota zeta; [|done].
    by destruct (deliver P ErrorNewPost). }
  split; [done|].
  unfold post_to_channels. unfold_monad. cbv beta iota zeta.
  by rewrite Hp, lookup_insert_eq.
Qed.

Lemma receive_thumbnail_run (user_id : Z) (msg : Message) (w : World)
    (thumbnail : Thumbnail) :
  thumbnail_of msg = Some thumbnail ->
  (forall d, posts_data w !! user_id = Some d ->
     deliver P ThumbnailReceived = None ->
     receive_thumbnail P user_id msg w
     = (Ok VIDEO_LINK,
        with_call (SendReply ThumbnailReceived)
          (with_posts_data <[user_id := set_thumbnail thumbnail d]> w)))
  /\ (posts_data w !! user_id = None ->
      deliver P ErrorThumbnail = None ->
      receive_thumbnail P user_id msg w
      = (Ok THUMBNAIL, with_call (SendReply ErrorThumbnail) w)).
Proof.
  unfold thumbnail_of, receive_thumbnail, update_draft, draft_of, reply.
  unfold_monad. cbv beta iota zeta. intros Ht.
  split.
  - intros d Hd Hr.
    destruct (last (m_photo msg)) as [f1|]; [|destruct (m_video msg) as [f2|];
      [|destruct (m_animation msg) as [f3|]; [|done]]];
      injection Ht as <-; rewrite Hd; cbv beta iota zeta; by rewrite Hr.
  - intros Hd Hr.
    destruct (last (m_photo msg)) as [f1|]; [|destruct (m_video msg) as [f2|];
      [|destruct (m_animation msg) as [f3|]; [|done]]];
      rewrite Hd; cbv beta iota zeta; by rewrite Hr.
Qed.

(** The thumbnail step with a media message: the thumbnail is stored in the
    user's draft and the wizard moves to the link step; when the user has no
    draft (it was cancelled from another chat, say) nothing is stored and the
    step is asked again. *)
Theorem receive_thumbnail_stores (user_id : Z) (msg : Message) (w : World)
    (thumbnail : Thumbnail) :
  thumbnail_of msg = Some thumbnail ->
  (forall d, posts_data w !! user_id = Some d ->
     deliver P ThumbnailReceived = None ->
     receive_thumbnail P user_id msg w
     = (Ok VIDEO_LINK,
        with_call (SendReply ThumbnailReceived)
          (with_posts_data <[user_id := set_thumbnail thumbnail d]> w)))
  /\ (posts_data w !! user_id = None ->
      deliver P ErrorThumbnail = None ->
      receive_thumbnail P user_id msg w
      = (Ok THUMBNAIL, with_call (SendReply ErrorThumbnail) w)).
Proof. exact (receive_thumbnail_run user_id msg w thumbnail). Qed.

Lemma receive_video_link_run (user_id : Z) (text : pystr) (w : World) (d : Draft) :
  valid_link (strip text) = true ->
  posts_data w !! user_id = Some d ->
  deliver P LinkSaved = None ->
  receive_video_link P user_id (text_message text) w
  = (Ok TITLE,
     with_call (SendReply LinkSaved)
       (with_posts_data <[user_id := set_video_link (strip text) d]> w)).
Proof.
  intros Hl Hd Hr. unfold valid_link in Hl.
  unfold receive_video_link, stripped_text, update_draft, draft_of, reply.
  unfold_monad. cbn [m_text text_message]. cbv beta iota zeta.
  rewrite Hl. cbn [negb]. rewrite Hd. cbv beta iota zeta. by rewrite Hr.
Qed.

(** The link step with a valid link: the stripped text is stored and the
    wizard moves to the title step. *)
Theorem receive_video_link_stores (user_id : Z) (text : pystr) (w : World) (d : Draft) :
  valid_link (strip text) = true ->
  posts_data w !! user_id = Some d ->
  deliver P LinkSaved = None ->
  receive_video_link P user_id (text_message text) w
  = (Ok TITLE,
     with_call (SendReply LinkSaved)
       (with_posts_data <[user_id := set_video_link (strip text) d]> w)).
Proof. exact (receive_video_link_run user_id text w d). Qed.

(** A valid time for a user without draft: the step fails as a whole, the
    wizard ends, and no job is registered. *)
Theorem receive_schedule_time_without_draft (user_id : Z) (text : pystr) (w : World)
    (hour minute : Z) :
  schedule_time_of (strip text) = Some (hour, minute) ->
  posts_data w !! user_id = None ->
  deliver P ErrorSchedule = None ->
  receive_schedule_time P user_id (text_message text) w
  = (Ok END, with_call (SendReply ErrorSchedule) w).
Proof.
  intros Hs Hd Hr.
  unfold receive_schedule_time, stripped_text, unpack_hour_minute, update_draft,
    draft_of, reply.
  unfold schedule_time_of in Hs. unfold_monad. cbn [m_text text_message].
  cbv beta iota zeta.
  destruct (split 58 (strip text)) as [|a [|b [|c l]]]; try done.
  destruct (py_int a) as [h|]; [|done]. destruct (py_int b) as [m|]; [|done].
  destruct (time_in_range h m) eqn:Hrange; [|done].
  cbv beta iota zeta. cbn [negb]. rewrite Hd. cbv beta iota zeta.
  by rewrite Hr.
Qed.

End WizardFlow.

Section WizardRuns.

Variable P : Platform.

(** The platform delivers every reply. *)
Definition all_delivered : Prop := forall r, deliver P r = None.

(** The four steps in order, each with a valid input: the wizard passes
    through the states in order and ends with a draft that holds exactly the
    thumbnail, the stripped link and the stripped title. *)
Theorem wizard_builds_complete_draft (user_id : Z) (w : World) (media : Message)
    (thumbnail : Thumbnail) (link_text title_text : pystr) :
  all_delivered ->
  listed w user_id <> [] ->
  thumbnail_of media = Some thumbnail ->
  valid_link (strip link_text) = true ->
  (length (strip title_text) <= 100)%nat ->
  let r1 := new_post P user_id w in
  let r2 := receive_thumbnail P user_id media (snd r1) in
  let r3 := receive_video_link P user_id (text_message link_text) (snd r2) in
  let r4 := receive_title P user_id (text_message title_text) (snd r3) in
  fst r1 = Ok THUMBNAIL /\ fst r2 = Ok VIDEO_LINK /\ fst r3 = Ok TITLE
  /\ fst r4 = Ok SCHEDULE_TIME
  /\ posts_data (snd r4) !! user_id
     = Some {| d_thumbnail := Some thumbnail;
               d_video_link := Some (strip link_text);
               d_title := Some (strip title_text);
               d_schedule_time := None |}.
Proof.
  intros Hall Hl Ht Hlink Htitle. cbv zeta.
  rewrite (proj2 (new_post_run P user_id w) Hl (Hall _)). cbn [fst snd].
  set (w1 := with_call _ _).
  rewrite (proj1 (receive_thumbnail_run P user_id media w1 thumbnail Ht) empty_draft)
    by (apply lookup_insert_eq || apply Hall).
  cbn [fst snd]. set (w2 := with_call _ _).
  rewrite (receive_video_link_run P user_id link_text w2
             (set_thumbnail thumbnail empty_draft))
    by (done || apply lookup_insert_eq || apply Hall).
  cbn [fst snd]. set (w3 := with_call _ _).
  rewrite (receive_title_accepted P user_id title_text w3
             (set_video_link (strip link_text) (set_thumbnail thumbnail empty_draft))
             (strip link_text))
    by (done || apply lookup_insert_eq || apply Hall).
  cbn [fst snd posts_data with_call with_posts_data].
  by rewrite lookup_insert_eq.
Qed.

(** The delivery choice: [post_now] broadcasts, reports the outcome of that
    broadcast and ends the wizard; [schedule_post] asks for the time and moves
    to the schedule-time step; any other callback data is acknowledged and
    leaves the conversation where it is. *)
Theorem handle_post_action_dispatch (user_id : Z) (data : pystr) (w : World) :
  all_delivered ->
  let answered := with_call (SendReply AnswerQuery) w in
  (data = py "post_now" ->
   exists success failed w',
     post_to_channels P user_id (with_call (SendReply Posting) answered)
     = (Ok (success, failed), w')
     /\ handle_post_action P user_id data w
        = (Ok (Some END), with_call (SendReply (PostComplete success failed)) w'))
  /\ (data = py "schedule_post" ->
      handle_post_action P user_id data w
      = (Ok (Some CHANNELS), with_call (SendReply AskScheduleTime) answered))
  /\ (data <> py "post_now" -> data <> py "schedule_post" ->
      handle_post_action P user_id data w = (Ok None, answered)).
Proof.
  intros Hall. cbv zeta. unfold handle_post_action.
  split; [|split].
  - intros ->. unfold catch at 1. unfold bind at 1. rewrite reply_run, (Hall AnswerQuery).
    rewrite bool_decide_eq_true_2 by done.
    unfold bind at 1. rewrite reply_run, (Hall Posting). unfold bind at 1.
    destruct (post_to_channels_total P user_id
                (with_call (SendReply Posting) (with_call (SendReply AnswerQuery) w)))
      as ([success failed] & w' & Hrun).
    exists success, failed, w'. split; [done|]. rewrite Hrun.
    unfold bind, ret. by rewrite reply_run, (Hall _).
  - intros ->. unfold catch at 1. unfold bind at 1. rewrite reply_run, (Hall AnswerQuery).
    rewrite bool_decide_eq_false_2 by done.
    rewrite bool_decide_eq_true_2 by done.
    unfold bind, ret. by rewrite reply_run, (Hall _).
  - intros H1 H2. unfold catch at 1. unfold bind at 1.
    rewrite reply_run, (Hall AnswerQuery). by rewrite !bool_decide_eq_false_2.
Qed.

(** The listing shows the user's channels in stored order, numbered from 1,
    each with the verdict of a fresh verification; it costs one name lookup
    and one membership lookup per channel and changes nothing else. *)
Theorem manage_channels_listing (user_id : Z) (w : World) :
  all_delivered ->
  exists entries,
    manage_channels P user_id w
    = (Ok tt,
       with_call (SendReply (ChannelList entries))
         (with_calls (flat_map (fun ch => [GetChat ch; GetChatMember ch])
                        (listed w user_id)) w))
    /\ map ce_channel entries = listed w user_id
    /\ map ce_index entries = seq 1 (length (listed w user_id))
    /\ map ce_verification entries = map (verdict P) (listed w user_id).
Proof.
  intros Hall. exists (entries_of P 1 (listed w user_id)).
  split; [by apply manage_channels_run|].
  generalize 1%nat as i. induction (listed w user_id) as [|c l IH]; intros i; [done|].
  cbn [entries_of map seq length ce_channel ce_index ce_verification].
  destruct (IH (S i)) as (-> & -> & ->). done.
Qed.

End WizardRuns.

(** ** The further properties at the concrete user *)

Lemma scenario_all_delivered : all_delivered scenario_platform.
Proof. intros r. reflexivity. Defined.

(** A photo message with two sizes. *)
Definition photo_message : Message :=
  {| m_photo := [py "small"; py "large"]; m_video := Some (py "clip");
     m_animation := None; m_text := None; m_forward_origin := None |}.

Definition large_photo : Thumbnail := {| th_type := photo; th_file_id := py "large" |}.

Lemma post_to_channels_attempts_all_witness :
  exists success failed new_calls,
    post_to_channels scenario_platform 7 scenario_world
    = (Ok (success, failed), with_calls new_calls scenario_world)
    /\ (success + length failed = length scenario_channels)%nat
    /\ omap (fun c => match c with GetChatMember ch => Some ch | _ => None end) new_calls
       = scenario_channels.
Proof.
  apply (post_to_channels_attempts_all scenario_platform 7 scenario_world scenario_draft
           scenario_thumbnail scenario_channels); (reflexivity || discriminate).
Defined.

Lemma new_post_entry_witness :
  new_post scenario_platform 7 scenario_world
  = (Ok THUMBNAIL,
     with_call (SendReply AskThumbnail)
       (with_posts_data <[7%Z := empty_draft]> scenario_world)).
Proof.
  apply (proj2 (new_post_entry scenario_platform 7 scenario_world)).
  - discriminate.
  - reflexivity.
Defined.

Lemma new_post_resets_draft_witness :
  posts_data (snd (new_post scenario_platform 7 scenario_world))
  = <[7%Z := empty_draft]> (posts_data scenario_world)
  /\ post_to_channels scenario_platform 7 (snd (new_post scenario_platform 7 scenario_world))
     = (Ok (0%nat, [(NA, Some (py "No post data"))]),
        snd (new_post scenario_platform 7 scenario_world)).
Proof.
  apply (new_post_resets_draft scenario_platform 7 scenario_world). discriminate.
Defined.

Lemma receive_thumbnail_stores_witness :
  receive_thumbnail scenario_platform 7 photo_message scenario_world
  = (Ok VIDEO_LINK,
     with_call (SendReply ThumbnailReceived)
       (with_posts_data <[7%Z := set_thumbnail large_photo scenario_draft]> scenario_world)).
Proof.
  apply (proj1 (receive_thumbnail_stores scenario_platform 7 photo_message scenario_world
                  large_photo eq_refl) scenario_draft); reflexivity.
Defined.

Lemma receive_video_link_stores_witness :
  receive_video_link scenario_platform 7 (text_message (py " https://example.com/a ")) scenario_world
  = (Ok TITLE,
     with_call (SendReply LinkSaved)
       (with_posts_data
          <[7%Z := set_video_link (strip (py " https://example.com/a ")) scenario_draft]>
          scenario_world)).
Proof.
  apply (receive_video_link_stores scenario_platform 7 (py " https://example.com/a ")
           scenario_world scenario_draft); reflexivity.
Defined.

Lemma receive_schedule_time_without_draft_witness :
  receive_schedule_time scenario_platform 7 (text_message (py "09:00")) empty_world
  = (Ok END, with_call (SendReply ErrorSchedule) empty_world).
Proof.
  apply (receive_schedule_time_without_draft scenario_platform 7 (py "09:00") empty_world 9 0);
    reflexivity.
Defined.

Lemma wizard_builds_complete_draft_witness :
  let r1 := new_post scenario_platform 7 scenario_world in
  let r2 := receive_thumbnail scenario_platform 7 photo_message (snd r1) in
  let r3 := receive_video_link scenario_platform 7
              (text_message (py " https://example.com/a ")) (snd r2) in
  let r4 := receive_title scenario_platform 7 (text_message (py "Hello_world!")) (snd r3) in
  fst r1 = Ok THUMBNAIL /\ fst r2 = Ok VIDEO_LINK /\ fst r3 = Ok TITLE
  /\ fst r4 = Ok SCHEDULE_TIME
  /\ posts_data (snd r4) !! 7%Z
     = Some {| d_thumbnail := Some large_photo;
               d_video_link := Some (strip (py " https://example.com/a "));
               d_title := Some (strip (py "Hello_world!"));
               d_schedule_time := None |}.
Proof.
  apply (wizard_builds_complete_draft scenario_platform 7 scenario_world photo_message
           large_photo (py " https://example.com/a ") (py "Hello_world!")).
  - apply scenario_all_delivered.
  - discriminate.
  - reflexivity.
  - reflexivity.
  - vm_compute. lia.
Defined.

Lemma handle_post_action_dispatch_witness :
  handle_post_action scenario_platform 7 (py "schedule_post") scenario_world
  = (Ok (Some CHANNELS),
     with_call (SendReply AskScheduleTime)
       (with_call (SendReply AnswerQuery) scenario_world)).
Proof.
  apply (proj1 (proj2 (handle_post_action_dispatch scenario_platform 7 (py "schedule_post")
                         scenario_world scenario_all_delivered))).
  reflexivity.
Defined.

Lemma manage_channels_listing_witness :
  exists entries,
    manage_channels scenario_platform 7 scenario_world
    = (Ok tt,
       with_call (SendReply (ChannelList entries))
         (with_calls (flat_map (fun ch => [GetChat ch; GetChatMember ch])
                        (listed scenario_world 7)) scenario_world))
    /\ map ce_channel entries = listed scenario_world 7
    /\ map ce_index entries = seq 1 (length (listed scenario_world 7))
    /\ map ce_verification entries = map (verdict scenario_platform) (listed scenario_world 7).
Proof.
  apply (manage_channels_listing scenario_platform 7 scenario_world).
  apply scenario_all_delivered.
Defined.
